(** * EVA Python Core: the request dispatcher of [src/python/eva_core.py]

    A shallow embedding of the dispatcher [EVAPythonCore], of its four
    capability components ([NLPProcessor], [MLTrainer], [DataAnalyzer],
    [NeuralEngine]) and of the request and response records, followed by the
    properties of routing, of the error boundary and of the life cycle.

    Modelling conventions.
    - Python values are the values a JSON payload can hold ([pyval]); a
      [dict] keeps its insertion order, as Python's does.
    - A Python string is a sequence of code points.  It is held as its
      UTF-8 encoding, which is what a string literal of this file is;
      [len], indexing and [split] work on its characters, not its bytes.
    - A coroutine is a computation in the monad [M]: it threads the object it
      is a method of together with NumPy's global generator, and it either
      returns or raises.  Every [await] of the source is sequential
      composition; the interleaving of several requests in flight is not
      modelled.
    - What the interpreter and NumPy decide, and the source does not, is a
      field of the class [Runtime]: [repr], the per-process string [hash] and
      the random draws.  [repr] may raise, as it does on a nesting too
      deep or on an integer of too many digits.
    - Logging has no effect on any value and is left out. *)

From Stdlib Require Import ZArith String Ascii List PrimFloat DecimalString.
From stdpp Require Import gmap strings.
Import ListNotations.

Set Warnings "-inexact-float,-register-all".
Set Default Proof Using "Type".

Open Scope string_scope.

(** ** Python values *)

Inductive pyval : Type :=
| VNone
| VBool (b : bool)
| VInt (z : Z)
| VFloat (f : float)
| VStr (s : string)
| VList (l : list pyval)
| VDict (d : list (string * pyval)).

(** [Dict[str, Any]]: string keys, in insertion order. *)
Abbreviation dict := (list (string * pyval)).

Fixpoint dict_lookup (d : dict) (k : string) : option pyval :=
  match d with
  | [] => None
  | (k', v) :: d' => if String.eqb k k' then Some v else dict_lookup d' k
  end.

(** [d.get(k, default)] *)
Definition dict_get (d : dict) (k : string) (default : pyval) : pyval :=
  match dict_lookup d k with
  | Some v => v
  | None => default
  end.

(** [type(v).__name__] *)
Definition type_name (v : pyval) : string :=
  match v with
  | VNone => "NoneType"
  | VBool _ => "bool"
  | VInt _ => "int"
  | VFloat _ => "float"
  | VStr _ => "str"
  | VList _ => "list"
  | VDict _ => "dict"
  end.

(** [bool(v)], the test behind [not v] and [if v]. *)
Definition truthy (v : pyval) : bool :=
  match v with
  | VNone => false
  | VBool b => b
  | VInt z => negb (Z.eqb z 0)
  | VFloat f => negb (PrimFloat.eqb f 0%float)
  | VStr s => negb (String.eqb s "")
  | VList l => match l with [] => false | _ => true end
  | VDict d => match d with [] => false | _ => true end
  end.

Definition str_of_Z (z : Z) : string := NilZero.string_of_int (Z.to_int z).
Definition str_of_nat (n : nat) : string := str_of_Z (Z.of_nat n).

(** ** Exceptions *)

(** The classes that occur.  The last three derive from [BaseException]
    only; an [except Exception] clause does not catch them. *)
Inductive exc_class : Type :=
| ValueError | TypeError | AttributeError | KeyError | IndexError
| OverflowError | MemoryError | RecursionError
| KeyboardInterrupt | SystemExit | CancelledError.

(** An exception object: its class and [str(e)]. *)
Record exn : Type := Exn { exc_type : exc_class; exc_str : string }.

(** [isinstance(e, Exception)] *)
Definition is_Exception (c : exc_class) : bool :=
  match c with
  | KeyboardInterrupt | SystemExit | CancelledError => false
  | _ => true
  end.

(** How a call ends. *)
Inductive outcome (A : Type) : Type :=
| Ok (a : A)
| Raise (e : exn).
Arguments Ok {A} a.
Arguments Raise {A} e.

(** ** Strings

    A character is a lead byte of the encoding and the continuation bytes
    that follow it; a lone surrogate has its three-byte form. *)

(** A byte [10xxxxxx]. *)
Definition is_continuation (b : ascii) : bool :=
  let n := nat_of_ascii b in (128 <=? n)%nat && (n <? 192)%nat.

(** The characters of [s], each as its encoding; [cur] is the character
    being read. *)
Fixpoint chars_from (s : string) (cur : string) : list string :=
  match s with
  | "" => if String.eqb cur "" then [] else [cur]
  | String b s' =>
      if is_continuation b then chars_from s' (cur ++ String b "")
      else if String.eqb cur "" then chars_from s' (String b "")
      else cur :: chars_from s' (String b "")
  end.

Definition str_chars (s : string) : list string := chars_from s "".

(** The code point a character encodes: the payload of the lead byte, then
    six bits of each continuation byte. *)
Definition code_point (ch : string) : N :=
  match ch with
  | "" => 0
  | String b rest =>
      let n := N_of_ascii b in
      let lead :=
        if (n <? 128)%N then n
        else if (n <? 224)%N then (n - 192)%N
        else if (n <? 240)%N then (n - 224)%N
        else (n - 240)%N in
      fold_left (fun acc c => (acc * 64 + (N_of_ascii c - 128))%N)
        (list_ascii_of_string rest) lead
  end.

(** The characters [str.split] and [str.isspace] take for whitespace:
    U+0009 to U+000D, U+001C to U+0020, U+0085, U+00A0, U+1680, U+2000 to
    U+200A, U+2028, U+2029, U+202F, U+205F and U+3000. *)
Definition py_isspace (ch : string) : bool :=
  let n := code_point ch in
  ((9 <=? n)%N && (n <=? 13)%N) || ((28 <=? n)%N && (n <=? 32)%N)
  || (n =? 133)%N || (n =? 160)%N || (n =? 5760)%N
  || ((8192 <=? n)%N && (n <=? 8202)%N)
  || (n =? 8232)%N || (n =? 8233)%N || (n =? 8239)%N || (n =? 8287)%N
  || (n =? 12288)%N.

(** The maximal runs free of whitespace in a list of characters; [word] is
    the run being read. *)
Fixpoint split_words (cs : list string) (word : string) : list string :=
  match cs with
  | [] => if String.eqb word "" then [] else [word]
  | ch :: cs' =>
      if py_isspace ch
      then (if String.eqb word "" then split_words cs' ""
            else word :: split_words cs' "")
      else split_words cs' (word ++ ch)
  end.

(** [s.split()] *)
Definition split_whitespace (s : string) (word : string) : list string :=
  split_words (str_chars s) word.

(** ** Built-in operations the handlers use

    The wording of the interpreter's own messages is CPython's (3.8 to
    3.13). *)

(** [len(v)] *)
Definition py_len (v : pyval) : outcome nat :=
  match v with
  | VStr s => Ok (List.length (str_chars s))
  | VList l => Ok (List.length l)
  | VDict d => Ok (List.length d)
  | _ => Raise (Exn TypeError ("object of type '" ++ type_name v ++ "' has no len()"))
  end.

(** [v[0]], for a dict whose keys are strings. *)
Definition py_getitem0 (v : pyval) : outcome pyval :=
  match v with
  | VStr s =>
      match str_chars s with
      | ch :: _ => Ok (VStr ch)
      | [] => Raise (Exn IndexError "string index out of range")
      end
  | VList (x :: _) => Ok x
  | VList [] => Raise (Exn IndexError "list index out of range")
  | VDict _ => Raise (Exn KeyError "0")
  | _ => Raise (Exn TypeError ("'" ++ type_name v ++ "' object is not subscriptable"))
  end.

(** [s.split(sep)] for a separator that is one ASCII character (its byte
    occurs in no other character of the encoding); [field] is the field
    being read. *)
Fixpoint split_on (sep : ascii) (s : string) (field : string) : list string :=
  match s with
  | "" => [field]
  | String c s' =>
      if Ascii.eqb c sep then field :: split_on sep s' ""
      else split_on sep s' (field ++ String c "")
  end.

(** [v.split()] and [v.split('.')]: only [str] has the attribute. *)
Definition py_split (v : pyval) (sep : option ascii) : outcome (list string) :=
  match v with
  | VStr s => Ok (match sep with
                  | None => split_whitespace s ""
                  | Some c => split_on c s ""
                  end)
  | _ => Raise (Exn AttributeError
                  ("'" ++ type_name v ++ "' object has no attribute 'split'"))
  end.

(** ** The interpreter and NumPy *)

(** NumPy reports a bad argument by raising one of these classes, all of
    them subclasses of [Exception]. *)
Inductive np_exc_class : Type :=
| NpValueError | NpTypeError | NpOverflowError | NpMemoryError.

Definition np_class (c : np_exc_class) : exc_class :=
  match c with
  | NpValueError => ValueError
  | NpTypeError => TypeError
  | NpOverflowError => OverflowError
  | NpMemoryError => MemoryError
  end.

Inductive np_outcome (A : Type) : Type :=
| NpOk (a : A)
| NpRaise (c : np_exc_class) (msg : string).
Arguments NpOk {A} a.
Arguments NpRaise {A} c msg.

(** [repr] gives up on a nesting too deep (RecursionError), on an integer
    of too many digits (ValueError) and for want of memory, all of them
    subclasses of [Exception]. *)
Inductive repr_exc_class : Type :=
| ReprRecursionError | ReprValueError | ReprMemoryError.

Definition repr_class (c : repr_exc_class) : exc_class :=
  match c with
  | ReprRecursionError => RecursionError
  | ReprValueError => ValueError
  | ReprMemoryError => MemoryError
  end.

Inductive repr_outcome : Type :=
| ReprOk (s : string)
| ReprRaise (c : repr_exc_class) (msg : string).

Class Runtime : Type := {
  (** the state of NumPy's global generator *)
  rng : Type;
  (** [repr(v)] *)
  py_repr : pyval -> repr_outcome;
  (** [hash(s)] of a string, seeded once per process *)
  py_hash : string -> Z;
  (** [np.random.rand(d0, d1, ...)], the array read as nested lists (a
      float when no dimension is given) *)
  np_random_rand : list pyval -> rng -> np_outcome pyval * rng;
  (** [list(np.random.randint(low, high, size))] *)
  np_random_randint : pyval -> pyval -> pyval -> rng -> np_outcome (list pyval) * rng
}.

(** [str(v)], also what an f-string field prints: a string is itself,
    [None], [True] and [False] are their names, and the rest is [repr(v)]. *)
Definition py_str `{Runtime} (v : pyval) : outcome string :=
  match v with
  | VStr s => Ok s
  | VNone => Ok "None"
  | VBool true => Ok "True"
  | VBool false => Ok "False"
  | _ =>
      match py_repr v with
      | ReprOk s => Ok s
      | ReprRaise c msg => Raise (Exn (repr_class c) msg)
      end
  end.

(** ** Coroutines as computations *)

Section Computations.
Context `{Runtime}.

(** What a method of an object of class [T] can read and write: the
    object and NumPy's generator. *)
Record Env (T : Type) : Type := mkEnv { self : T; np_state : rng }.
Arguments mkEnv {T} self np_state.
Arguments self {T} e.
Arguments np_state {T} e.

(** A method body: it returns or raises, and leaves a state either way
    (Python undoes nothing when an exception is raised). *)
Definition M (T A : Type) : Type := Env T -> outcome A * Env T.

Definition ret {T A} (a : A) : M T A := fun e => (Ok a, e).

Definition bind {T A B} (m : M T A) (k : A -> M T B) : M T B :=
  fun e =>
    match m e with
    | (Ok a, e') => k a e'
    | (Raise x, e') => (Raise x, e')
    end.

Definition raise {T A} (x : exn) : M T A := fun e => (Raise x, e).

Definition lift {T A} (r : outcome A) : M T A := fun e => (r, e).

Definition get_self {T} : M T T := fun e => (Ok (self e), e).

Definition set_self {T} (o : T) : M T unit :=
  fun e => (Ok tt, mkEnv o (np_state e)).

(** A call [self.component.method(...)]: the method runs on the component
    held in a field of [self]. *)
Definition on_component {T C A} (get : T -> C) (set : C -> T -> T)
    (m : M C A) : M T A :=
  fun e =>
    let '(r, e') := m (mkEnv (get (self e)) (np_state e)) in
    (r, mkEnv (set (self e') (self e)) (np_state e')).

Definition np_rand {T} (dims : list pyval) : M T pyval :=
  fun e =>
    match np_random_rand dims (np_state e) with
    | (NpOk v, g) => (Ok v, mkEnv (self e) g)
    | (NpRaise c msg, g) => (Raise (Exn (np_class c) msg), mkEnv (self e) g)
    end.

Definition np_randint {T} (low high size : pyval) : M T (list pyval) :=
  fun e =>
    match np_random_randint low high size (np_state e) with
    | (NpOk v, g) => (Ok v, mkEnv (self e) g)
    | (NpRaise c msg, g) => (Raise (Exn (np_class c) msg), mkEnv (self e) g)
    end.

(** [try: m except Exception as x: h x] *)
Definition try_except {T A} (m : M T A) (h : exn -> M T A) : M T A :=
  fun e =>
    match m e with
    | (Ok a, e') => (Ok a, e')
    | (Raise x, e') =>
        if is_Exception (exc_type x) then h x e' else (Raise x, e')
    end.

(** A comprehension: [[f(x) for x in xs]], left to right. *)
Fixpoint for_each {T A B} (xs : list A) (f : A -> M T B) : M T (list B) :=
  match xs with
  | [] => ret []
  | x :: xs' =>
      bind (f x) (fun y => bind (for_each xs' f) (fun ys => ret (y :: ys)))
  end.
End Computations.

Arguments mkEnv {_ T} self np_state.
Arguments self {_ T} e.
Arguments np_state {_ T} e.

Notation "'let*' x ':=' m 'in' k" := (bind m (fun x => k))
  (at level 10, x name, m at level 100, k at level 200).

(** ** The request and the response *)

Module ProcessingRequest.
Record t : Type := {
  method : string;
  data : dict;
  options : dict;
  request_id : string
}.
End ProcessingRequest.

Module ProcessingResponse.
Record t : Type := {
  request_id : string;
  success : bool;
  result : option dict;
  error : option string;
  metadata : option dict
}.
End ProcessingResponse.

(** ** NLPProcessor *)

Module NLPProcessor.
Record t : Type := { tokenizer : pyval; model : pyval }.

(** [__init__] *)
Definition new : t := {| tokenizer := VNone; model := VNone |}.

Section Methods.
Context `{Runtime}.

Definition initialize : M t unit := ret tt.

Definition analyze_text (text : pyval) : M t dict :=
  let* words := lift (py_split text None) in
  let* chars := lift (py_len text) in
  let* sentences := lift (py_split text (Some "."%char)) in
  ret [("word_count", VInt (Z.of_nat (List.length words)));
       ("char_count", VInt (Z.of_nat chars));
       ("sentences", VInt (Z.of_nat (List.length sentences)));
       ("language", VStr "en");
       ("complexity_score", VFloat 0.7);
       ("readability", VFloat 0.8)].

Definition extract_entities (text : pyval) : M t dict :=
  ret [("entities",
        VList [VDict [("text", VStr "EVA"); ("label", VStr "SYSTEM");
                      ("confidence", VFloat 0.95)];
               VDict [("text", VStr "Python"); ("label", VStr "TECHNOLOGY");
                      ("confidence", VFloat 0.9)]]);
       ("entity_count", VInt 2)].

Definition sentiment_analysis (text : pyval) : M t dict :=
  ret [("sentiment", VStr "positive");
       ("confidence", VFloat 0.85);
       ("scores", VDict [("positive", VFloat 0.85);
                         ("negative", VFloat 0.10);
                         ("neutral", VFloat 0.05)])].

Definition generate_embeddings (text : pyval) : M t dict :=
  let* embedding := np_rand [VInt 768] in
  ret [("embedding", embedding);
       ("dimension", VInt 768);
       ("model", VStr "distilbert-base-uncased")].

Definition process (method : string) (data options : dict) : M t dict :=
  if String.eqb method "nlp_analyze_text" then
    analyze_text (dict_get data "text" (VStr ""))
  else if String.eqb method "nlp_extract_entities" then
    extract_entities (dict_get data "text" (VStr ""))
  else if String.eqb method "nlp_sentiment_analysis" then
    sentiment_analysis (dict_get data "text" (VStr ""))
  else if String.eqb method "nlp_generate_embeddings" then
    generate_embeddings (dict_get data "text" (VStr ""))
  else raise (Exn ValueError ("Unknown NLP method: " ++ method)).

Definition get_capabilities : M t (list string) :=
  ret ["text_analysis"; "entity_extraction"; "sentiment_analysis";
   "embedding_generation"; "language_detection"].
End Methods.
End NLPProcessor.

(** ** MLTrainer *)

Module MLTrainer.
Record t : Type := {
  models : gmap string pyval;
  scalers : gmap string pyval
}.

(** [__init__] *)
Definition new : t := {| models := ∅; scalers := ∅ |}.

Section Methods.
Context `{Runtime}.

Definition initialize : M t unit := ret tt.

Definition train_model (data options : dict) : M t dict :=
  let model_type := dict_get options "model_type" (VStr "random_forest") in
  let* text := lift (py_str (VDict data)) in
  let model_id := "model_" ++ str_of_Z (py_hash text mod 10000) in
  let* o := get_self in
  let* _ := set_self
    {| models :=
         <[model_id :=
             VDict [("type", model_type);
                    ("trained_at", VStr "simulation");
                    ("features", dict_get data "features" (VList []));
                    ("target", dict_get data "target" (VStr "unknown"))]]>
           (models o);
       scalers := scalers o |} in
  ret [("model_id", VStr model_id);
       ("accuracy", VFloat 0.92);
       ("precision", VFloat 0.89);
       ("recall", VFloat 0.94);
       ("f1_score", VFloat 0.91);
       ("training_time", VFloat 2.5)].

(** [model_id not in self.models]: hashing a list or a dict raises; the
    keys of the store are strings, so no other value is among them. *)
Definition not_in_models (model_id : pyval) (o : t) : outcome bool :=
  match model_id with
  | VStr s => Ok (match models o !! s with Some _ => false | None => true end)
  | VList _ | VDict _ =>
      Raise (Exn TypeError ("unhashable type: '" ++ type_name model_id ++ "'"))
  | _ => Ok true
  end.

Definition predict (data options : dict) : M t dict :=
  let model_id := dict_get options "model_id" VNone in
  let* o := get_self in
  let* missing :=
    if negb (truthy model_id) then ret true
    else lift (not_in_models model_id o) in
  if missing : bool then
    let* text := lift (py_str model_id) in
    raise (Exn ValueError ("Model " ++ text ++ " not found"))
  else
    let input_data := dict_get data "input" (VList []) in
    let* n := lift (py_len input_data) in
    let predictions :=
      if (0 <? n)%nat then [VFloat 0.1; VFloat 0.7; VFloat 0.2] else [] in
    ret [("predictions", VList predictions);
         ("confidence", VFloat 0.85);
         ("model_id", model_id);
         ("prediction_time", VFloat 0.05)].

Definition evaluate_model (data options : dict) : M t dict :=
  ret [("accuracy", VFloat 0.94);
       ("precision", VFloat 0.91);
       ("recall", VFloat 0.96);
       ("f1_score", VFloat 0.93);
       ("confusion_matrix",
        VList [VList [VInt 85; VInt 5]; VList [VInt 3; VInt 92]]);
       ("roc_auc", VFloat 0.97)].

Definition feature_selection (data options : dict) : M t dict :=
  let features := dict_get data "features" (VList []) in
  let* n := lift (py_len features) in
  let* feature_importance :=
    for_each (seq 0 n)
      (fun i => let* x := np_rand [] in ret ("feature_" ++ str_of_nat i, x)) in
  ret [("feature_importance", VDict feature_importance);
       ("selected_features",
        VList (map VStr (firstn 10 (map fst feature_importance))));
       ("importance_method", VStr "random_forest")].

Definition process (method : string) (data options : dict) : M t dict :=
  if String.eqb method "ml_train_model" then train_model data options
  else if String.eqb method "ml_predict" then predict data options
  else if String.eqb method "ml_evaluate_model" then evaluate_model data options
  else if String.eqb method "ml_feature_selection" then
    feature_selection data options
  else raise (Exn ValueError ("Unknown ML method: " ++ method)).

Definition get_capabilities : M t (list string) :=
  ret ["model_training"; "prediction"; "model_evaluation"; "feature_selection";
   "hyperparameter_tuning"].
End Methods.
End MLTrainer.

(** ** DataAnalyzer *)

Module DataAnalyzer.
(** The object holds its logger only. *)
Record t : Type := mk {}.

(** [__init__] *)
Definition new : t := mk.

Section Methods.
Context `{Runtime}.

Definition initialize : M t unit := ret tt.

Definition analyze_data (data : dict) : M t dict :=
  let dataset := dict_get data "dataset" (VList []) in
  if negb (truthy dataset) then
    ret [("error", VStr "No dataset provided")]
  else
    let* rows := lift (py_len dataset) in
    let* columns :=
      if truthy dataset then
        let* first := lift (py_getitem0 dataset) in lift (py_len first)
      else ret 0%nat in
    ret [("rows", VInt (Z.of_nat rows));
         ("columns", VInt (Z.of_nat columns));
         ("missing_values", VInt 5);
         ("data_types", VDict [("numeric", VInt 8);
                               ("categorical", VInt 3);
                               ("text", VInt 2)]);
         ("statistics", VDict [("mean", VFloat 45.2);
                               ("std", VFloat 12.8);
                               ("min", VFloat 0.1);
                               ("max", VFloat 99.9)])].

Definition clean_data (data : dict) : M t dict :=
  ret [("cleaned_rows", VInt 985);
       ("removed_duplicates", VInt 15);
       ("filled_missing", VInt 25);
       ("outliers_removed", VInt 8);
       ("cleaning_score", VFloat 0.94)].

Definition transform_data (data options : dict) : M t dict :=
  let transform_type := dict_get options "transform" (VStr "standardize") in
  ret [("transform_applied", transform_type);
       ("original_shape", VList [VInt 1000; VInt 13]);
       ("transformed_shape", VList [VInt 1000; VInt 13]);
       ("scaling_parameters", VDict [("mean", VFloat 0.0);
                                     ("std", VFloat 1.0)])].

Definition cluster_data (data options : dict) : M t dict :=
  let n_clusters := dict_get options "n_clusters" (VInt 3) in
  let* cluster_labels := np_randint (VInt 0) n_clusters (VInt 100) in
  let* cluster_centers := np_rand [n_clusters; VInt 5] in
  ret [("n_clusters", n_clusters);
       ("cluster_labels", VList cluster_labels);
       ("cluster_centers", cluster_centers);
       ("silhouette_score", VFloat 0.72);
       ("inertia", VFloat 234.5)].

Definition process (method : string) (data options : dict) : M t dict :=
  if String.eqb method "data_analyze" then analyze_data data
  else if String.eqb method "data_clean" then clean_data data
  else if String.eqb method "data_transform" then transform_data data options
  else if String.eqb method "data_cluster" then cluster_data data options
  else raise (Exn ValueError ("Unknown data method: " ++ method)).

Definition get_capabilities : M t (list string) :=
  ret ["data_analysis"; "data_cleaning"; "data_transformation"; "clustering";
   "statistical_analysis"].
End Methods.
End DataAnalyzer.

(** ** NeuralEngine *)

Module NeuralEngine.
Record t : Type := { networks : gmap string pyval }.

(** [__init__] *)
Definition new : t := {| networks := ∅ |}.

Section Methods.
Context `{Runtime}.

Definition initialize : M t unit := ret tt.

Definition create_network (data options : dict) : M t dict :=
  let architecture := dict_get data "architecture" (VStr "feedforward") in
  let* text := lift (py_str (VDict data)) in
  let network_id := "network_" ++ str_of_Z (py_hash text mod 10000) in
  let* o := get_self in
  let* _ := set_self
    {| networks :=
         <[network_id :=
             VDict [("architecture", architecture);
                    ("layers",
                     dict_get data "layers" (VList [VInt 64; VInt 32; VInt 16]));
                    ("activation", dict_get data "activation" (VStr "relu"));
                    ("created_at", VStr "simulation")]]>
           (networks o) |} in
  ret [("network_id", VStr network_id);
       ("architecture", architecture);
       ("parameters", VInt 15840);
       ("memory_usage", VStr "2.5MB")].

Definition train_network (data options : dict) : M t dict :=
  let network_id := dict_get options "network_id" VNone in
  let epochs := dict_get options "epochs" (VInt 100) in
  ret [("network_id", network_id);
       ("epochs_completed", epochs);
       ("final_loss", VFloat 0.0234);
       ("final_accuracy", VFloat 0.967);
       ("training_time", VFloat 45.2);
       ("convergence", VBool true)].

Definition run_inference (data options : dict) : M t dict :=
  let network_id := dict_get options "network_id" VNone in
  let input_data := dict_get data "input" (VList []) in
  let* n := lift (py_len input_data) in
  let* output := np_rand [VInt (Z.of_nat n); VInt 3] in
  ret [("network_id", network_id);
       ("output", output);
       ("confidence", VFloat 0.89);
       ("inference_time", VFloat 0.003)].

Definition optimize_network (data options : dict) : M t dict :=
  ret [("optimization_applied", VStr "pruning");
       ("size_reduction", VFloat 0.35);
       ("speed_improvement", VFloat 2.1);
       ("accuracy_retained", VFloat 0.98)].

Definition process (method : string) (data options : dict) : M t dict :=
  if String.eqb method "neural_create_network" then create_network data options
  else if String.eqb method "neural_train" then train_network data options
  else if String.eqb method "neural_inference" then run_inference data options
  else if String.eqb method "neural_optimize" then optimize_network data options
  else raise (Exn ValueError ("Unknown neural method: " ++ method)).

Definition get_capabilities : M t (list string) :=
  ret ["network_creation"; "training"; "inference"; "optimization";
   "transfer_learning"].
End Methods.
End NeuralEngine.

(** ** EVAPythonCore, the dispatcher *)

Module EVAPythonCore.
Record t : Type := {
  models : gmap string pyval;
  tokenizers : gmap string pyval;
  data_processors : gmap string pyval;
  is_initialized : bool;
  nlp_processor : NLPProcessor.t;
  ml_trainer : MLTrainer.t;
  data_analyzer : DataAnalyzer.t;
  neural_engine : NeuralEngine.t
}.

(** [__init__] *)
Definition new : t :=
  {| models := ∅;
     tokenizers := ∅;
     data_processors := ∅;
     is_initialized := false;
     nlp_processor := NLPProcessor.new;
     ml_trainer := MLTrainer.new;
     data_analyzer := DataAnalyzer.new;
     neural_engine := NeuralEngine.new |}.

Definition set_models (m : gmap string pyval) (o : t) : t :=
  {| models := m;
     tokenizers := tokenizers o;
     data_processors := data_processors o;
     is_initialized := is_initialized o;
     nlp_processor := nlp_processor o;
     ml_trainer := ml_trainer o;
     data_analyzer := data_analyzer o;
     neural_engine := neural_engine o |}.

Definition set_is_initialized (b : bool) (o : t) : t :=
  {| models := models o;
     tokenizers := tokenizers o;
     data_processors := data_processors o;
     is_initialized := b;
     nlp_processor := nlp_processor o;
     ml_trainer := ml_trainer o;
     data_analyzer := data_analyzer o;
     neural_engine := neural_engine o |}.

Definition set_nlp_processor (c : NLPProcessor.t) (o : t) : t :=
  {| models := models o;
     tokenizers := tokenizers o;
     data_processors := data_processors o;
     is_initialized := is_initialized o;
     nlp_processor := c;
     ml_trainer := ml_trainer o;
     data_analyzer := data_analyzer o;
     neural_engine := neural_engine o |}.

Definition set_ml_trainer (c : MLTrainer.t) (o : t) : t :=
  {| models := models o;
     tokenizers := tokenizers o;
     data_processors := data_processors o;
     is_initialized := is_initialized o;
     nlp_processor := nlp_processor o;
     ml_trainer := c;
     data_analyzer := data_analyzer o;
     neural_engine := neural_engine o |}.

Definition set_data_analyzer (c : DataAnalyzer.t) (o : t) : t :=
  {| models := models o;
     tokenizers := tokenizers o;
     data_processors := data_processors o;
     is_initialized := is_initialized o;
     nlp_processor := nlp_processor o;
     ml_trainer := ml_trainer o;
     data_analyzer := c;
     neural_engine := neural_engine o |}.

Definition set_neural_engine (c : NeuralEngine.t) (o : t) : t :=
  {| models := models o;
     tokenizers := tokenizers o;
     data_processors := data_processors o;
     is_initialized := is_initialized o;
     nlp_processor := nlp_processor o;
     ml_trainer := ml_trainer o;
     data_analyzer := data_analyzer o;
     neural_engine := c |}.

Section Methods.
Context `{Runtime}.

(** The four calls [self.<component>.<method>(...)]. *)
Definition on_nlp {A} : M NLPProcessor.t A -> M t A :=
  on_component nlp_processor set_nlp_processor.
Definition on_ml {A} : M MLTrainer.t A -> M t A :=
  on_component ml_trainer set_ml_trainer.
Definition on_data {A} : M DataAnalyzer.t A -> M t A :=
  on_component data_analyzer set_data_analyzer.
Definition on_neural {A} : M NeuralEngine.t A -> M t A :=
  on_component neural_engine set_neural_engine.

(** The [initialize] coroutines of the four components.  The dispatcher
    calls whatever its component objects provide; [source_components]
    are the ones of this repository. *)
Record Components : Type := {
  nlp_initialize : M NLPProcessor.t unit;
  ml_initialize : M MLTrainer.t unit;
  data_initialize : M DataAnalyzer.t unit;
  neural_initialize : M NeuralEngine.t unit
}.

Definition source_components : Components :=
  {| nlp_initialize := NLPProcessor.initialize;
     ml_initialize := MLTrainer.initialize;
     data_initialize := DataAnalyzer.initialize;
     neural_initialize := NeuralEngine.initialize |}.

Definition load_default_models : M t unit :=
  try_except
    (let* o := get_self in
     let* _ := set_self
       (set_models
          (<["nlp_base" :=
               VDict [("type", VStr "transformer");
                      ("name", VStr "distilbert-base-uncased");
                      ("status", VStr "loaded");
                      ("capabilities",
                       VList [VStr "text_classification"; VStr "embeddings";
                              VStr "sentiment"])]]> (models o)) o) in
     let* o := get_self in
     set_self
       (set_models
          (<["ml_classifier" :=
               VDict [("type", VStr "sklearn");
                      ("name", VStr "random_forest");
                      ("status", VStr "loaded");
                      ("capabilities",
                       VList [VStr "classification";
                              VStr "feature_importance"])]]> (models o)) o))
    (fun _ => ret tt).

(** [initialize], for any component objects. *)
Definition initialize_with (c : Components) : M t unit :=
  try_except
    (let* _ := on_nlp (nlp_initialize c) in
     let* _ := on_ml (ml_initialize c) in
     let* _ := on_data (data_initialize c) in
     let* _ := on_neural (neural_initialize c) in
     let* _ := load_default_models in
     let* o := get_self in
     set_self (set_is_initialized true o))
    (fun x => raise x).

Definition initialize : M t unit := initialize_with source_components.

Definition process_general (method : string) (data options : dict) : M t dict :=
  if String.eqb method "health_check" then
    let* o := get_self in
    ret [("status", VStr "healthy");
         ("initialized", VBool (is_initialized o));
         ("models_loaded", VInt (Z.of_nat (size (models o))));
         ("uptime", VStr "simulation")]
  else if String.eqb method "get_capabilities" then
    let* nlp := on_nlp NLPProcessor.get_capabilities in
    let* ml := on_ml MLTrainer.get_capabilities in
    let* data := on_data DataAnalyzer.get_capabilities in
    let* neural := on_neural NeuralEngine.get_capabilities in
    ret [("nlp", VList (map VStr nlp));
         ("ml", VList (map VStr ml));
         ("data", VList (map VStr data));
         ("neural", VList (map VStr neural))]
  else raise (Exn ValueError ("Unknown method: " ++ method)).

(** The routing of [process_request], the body of its [try] up to the
    construction of the response. *)
Definition route (request : ProcessingRequest.t) : M t dict :=
  let method := ProcessingRequest.method request in
  let data := ProcessingRequest.data request in
  let options := ProcessingRequest.options request in
  if String.prefix "nlp_" method then
    on_nlp (NLPProcessor.process method data options)
  else if String.prefix "ml_" method then
    on_ml (MLTrainer.process method data options)
  else if String.prefix "data_" method then
    on_data (DataAnalyzer.process method data options)
  else if String.prefix "neural_" method then
    on_neural (NeuralEngine.process method data options)
  else process_general method data options.

Definition process_request (request : ProcessingRequest.t)
  : M t ProcessingResponse.t :=
  try_except
    (let* result := route request in
     ret {| ProcessingResponse.request_id := ProcessingRequest.request_id request;
            ProcessingResponse.success := true;
            ProcessingResponse.result := Some result;
            ProcessingResponse.error := None;
            ProcessingResponse.metadata :=
              Some [("processing_time", VFloat 0.1);
                    ("model_used", VStr "default")] |})
    (fun x =>
       ret {| ProcessingResponse.request_id := ProcessingRequest.request_id request;
              ProcessingResponse.success := false;
              ProcessingResponse.result := None;
              ProcessingResponse.error := Some (exc_str x);
              ProcessingResponse.metadata := None |}).
End Methods.
End EVAPythonCore.

(** ** A runtime to run examples on

    A deterministic stand-in for the interpreter: [repr] prints the name of
    the type and gives up on a value nested more than three deep, the hash
    of a string is its length in bytes, and every random draw is zero (the
    generator counts the draws). *)
Fixpoint depth (v : pyval) : nat :=
  match v with
  | VList l => S (list_max (map depth l))
  | VDict d => S (list_max (map (fun kv => depth (snd kv)) d))
  | _ => 0
  end.

Definition toy_runtime : Runtime := {|
  rng := nat;
  py_repr := fun v =>
    if (3 <? depth v)%nat then
      ReprRaise ReprRecursionError
        "maximum recursion depth exceeded while getting the repr of an object"
    else ReprOk ("<" ++ type_name v ++ ">");
  py_hash := fun s => Z.of_nat (String.length s);
  np_random_rand := fun dims g =>
    match dims with
    | [] => (NpOk (VFloat 0), S g)
    | VInt n :: _ => (NpOk (VList (repeat (VFloat 0) (Z.to_nat n))), S g)
    | _ => (NpRaise NpTypeError "an integer is required", S g)
    end;
  np_random_randint := fun low high size g =>
    match size with
    | VInt n => (NpOk (repeat (VInt 0) (Z.to_nat n)), S g)
    | _ => (NpRaise NpTypeError "an integer is required", S g)
    end
|}.

Definition toy_env : @Env toy_runtime EVAPythonCore.t :=
  @mkEnv toy_runtime _ EVAPythonCore.new 0%nat.

(** * Properties *)

(** ** What a handler may do before it raises *)

Section HandlerLogic.
Context `{Runtime}.

(** A failing built-in raises a subclass of [Exception]. *)
Definition raises_Exception {A} (r : outcome A) : Prop :=
  match r with
  | Ok _ => True
  | Raise x => is_Exception (exc_type x) = true
  end.

(** [m] never writes to its object (it may draw random numbers); what it
    returns satisfies [Q], and what it raises is an [Exception]. *)
Definition reads_only {T A} (m : M T A) (Q : A -> Prop) : Prop :=
  forall e,
    match m e with
    | (Ok a, e') => self e' = self e /\ Q a
    | (Raise x, e') => self e' = self e /\ is_Exception (exc_type x) = true
    end.

(** [m] may write to its object, but not on a path that raises. *)
Definition fails_before_writing {T A} (m : M T A) (Q : A -> Prop) : Prop :=
  forall e,
    match m e with
    | (Ok a, _) => Q a
    | (Raise x, e') => self e' = self e /\ is_Exception (exc_type x) = true
    end.

Definition any {A} : A -> Prop := fun _ => True.
Definition nonempty : dict -> Prop := fun d => d <> [].

Lemma reads_only_weaken {T A} (m : M T A) (Q : A -> Prop) :
  reads_only m Q -> reads_only m any.
Proof.
  intros Hm e. specialize (Hm e). destruct (m e) as [[a|x] e']; unfold any; tauto.
Qed.

Lemma reads_only_fails_before_writing {T A} (m : M T A) (Q : A -> Prop) :
  reads_only m Q -> fails_before_writing m Q.
Proof.
  intros Hm e. specialize (Hm e). destruct (m e) as [[a|x] e']; tauto.
Qed.

Lemma reads_only_ret {T A} (a : A) (Q : A -> Prop) :
  Q a -> reads_only (T:=T) (ret a) Q.
Proof. intros Ha e. cbn. auto. Qed.

Lemma reads_only_raise {T A} (c : exc_class) (msg : string) (Q : A -> Prop) :
  is_Exception c = true -> reads_only (T:=T) (raise (Exn c msg)) Q.
Proof. intros Hc e. cbn. auto. Qed.

Lemma reads_only_lift {T A} (r : outcome A) :
  raises_Exception r -> reads_only (T:=T) (lift r) any.
Proof. intros Hr e. destruct r; cbn in *; unfold any; auto. Qed.

Lemma reads_only_get_self {T} : reads_only (T:=T) get_self any.
Proof. intros e. cbn. unfold any. auto. Qed.

Lemma reads_only_bind {T A B} (m : M T A) (k : A -> M T B) (Q : B -> Prop) :
  reads_only m any -> (forall a, reads_only (k a) Q) ->
  reads_only (bind m k) Q.
Proof.
  intros Hm Hk e. unfold bind. specialize (Hm e).
  destruct (m e) as [[a|x] e1]; [|exact Hm].
  destruct Hm as [Hself _]. specialize (Hk a e1).
  destruct (k a e1) as [[b|x] e2]; rewrite <- Hself; exact Hk.
Qed.

Lemma np_class_is_Exception c : is_Exception (np_class c) = true.
Proof. destruct c; reflexivity. Qed.

Lemma reads_only_np_rand {T} (dims : list pyval) :
  reads_only (T:=T) (np_rand dims) any.
Proof.
  intros e. unfold np_rand.
  destruct (np_random_rand dims (np_state e)) as [[v|c msg] g]; cbn;
    unfold any; auto using np_class_is_Exception.
Qed.

Lemma reads_only_np_randint {T} (low high size : pyval) :
  reads_only (T:=T) (np_randint low high size) any.
Proof.
  intros e. unfold np_randint.
  destruct (np_random_randint low high size (np_state e)) as [[v|c msg] g]; cbn;
    unfold any; auto using np_class_is_Exception.
Qed.

Lemma reads_only_for_each {T A B} (xs : list A) (f : A -> M T B) :
  (forall x, reads_only (f x) any) -> reads_only (for_each xs f) any.
Proof.
  intros Hf. induction xs as [|x xs IH]; cbn [for_each].
  - apply reads_only_ret. exact I.
  - apply reads_only_bind; [apply Hf|]. intros y.
    apply reads_only_bind; [exact IH|]. intros ys.
    apply reads_only_ret. exact I.
Qed.

(** The built-ins raise [TypeError], [AttributeError], [KeyError] or
    [IndexError]. *)
Lemma py_len_raises v : raises_Exception (py_len v).
Proof. destruct v; cbn; auto. Qed.

Lemma py_getitem0_raises v : raises_Exception (py_getitem0 v).
Proof.
  destruct v as [| | | |s|[|x l]|d]; cbn; auto.
  destruct (str_chars s); cbn; auto.
Qed.

Lemma repr_class_is_Exception c : is_Exception (repr_class c) = true.
Proof. destruct c; reflexivity. Qed.

(** [str] raises what [repr] raises. *)
Lemma py_str_raises v : raises_Exception (py_str v).
Proof.
  destruct v as [|[|]| | | | |]; cbn; auto;
    destruct (py_repr _); cbn; auto using repr_class_is_Exception.
Qed.

Lemma py_split_raises v sep : raises_Exception (py_split v sep).
Proof. destruct v; cbn; auto. Qed.

Lemma not_in_models_raises v o : raises_Exception (MLTrainer.not_in_models v o).
Proof. destruct v; cbn; auto. Qed.

(** A method called on a component writes to that component only, so it
    inherits both properties when the field accessors agree. *)
Lemma on_component_reads_only {T C A} (get : T -> C) (set : C -> T -> T)
    (m : M C A) (Q : A -> Prop) :
  (forall o, set (get o) o = o) ->
  reads_only m Q -> reads_only (on_component get set m) Q.
Proof.
  intros Hlens Hm e. unfold on_component.
  specialize (Hm (mkEnv (get (self e)) (np_state e))).
  destruct (m _) as [[a|x] e1]; cbn in *; destruct Hm as [-> HQ];
    rewrite Hlens; auto.
Qed.

Lemma on_component_fails_before_writing {T C A} (get : T -> C)
    (set : C -> T -> T) (m : M C A) (Q : A -> Prop) :
  (forall o, set (get o) o = o) ->
  fails_before_writing m Q -> fails_before_writing (on_component get set m) Q.
Proof.
  intros Hlens Hm e. unfold on_component.
  specialize (Hm (mkEnv (get (self e)) (np_state e))).
  destruct (m _) as [[a|x] e1]; cbn in *; [exact Hm|].
  destruct Hm as [-> HQ]. rewrite Hlens. auto.
Qed.
End HandlerLogic.

Create HintDb handlers.
#[local] Hint Resolve py_len_raises py_getitem0_raises py_split_raises
  py_str_raises not_in_models_raises : handlers.

(** One step of a proof that a handler only reads. *)
Ltac reads_only_step :=
  lazymatch goal with
  | |- reads_only (ret _) _ => apply reads_only_ret; first [exact I | unfold nonempty; discriminate]
  | |- reads_only (raise _) _ => apply reads_only_raise; reflexivity
  | |- reads_only (lift _) _ => apply reads_only_lift; auto with handlers
  | |- reads_only get_self _ => apply reads_only_get_self
  | |- reads_only (np_rand _) _ => apply reads_only_np_rand
  | |- reads_only (np_randint _ _ _) _ => apply reads_only_np_randint
  | |- reads_only (for_each _ _) _ => apply reads_only_for_each; intros ?
  | |- reads_only (bind _ _) _ => apply reads_only_bind; [|intros ?]
  | |- reads_only (if ?b then _ else _) _ => destruct b
  end.

(** ** The handlers of the four components *)

Section Handlers.
Context `{Runtime}.

Lemma NLPProcessor_process_reads_only method data options :
  reads_only (NLPProcessor.process method data options) nonempty.
Proof.
  unfold NLPProcessor.process, NLPProcessor.analyze_text,
    NLPProcessor.extract_entities, NLPProcessor.sentiment_analysis,
    NLPProcessor.generate_embeddings.
  repeat reads_only_step.
Qed.

Lemma MLTrainer_predict_reads_only data options :
  reads_only (MLTrainer.predict data options) nonempty.
Proof.
  unfold MLTrainer.predict. cbv zeta. repeat reads_only_step.
Qed.

Lemma MLTrainer_feature_selection_reads_only data options :
  reads_only (MLTrainer.feature_selection data options) nonempty.
Proof.
  unfold MLTrainer.feature_selection. cbv zeta. repeat reads_only_step.
Qed.

(** [train_model] raises, if it does, in [str(data)], before it writes. *)
Lemma MLTrainer_train_model_fails_before_writing data options :
  fails_before_writing (MLTrainer.train_model data options) nonempty.
Proof.
  intros e. unfold MLTrainer.train_model. cbv zeta. unfold bind at 1, lift.
  pose proof (py_str_raises (VDict data)) as Hs.
  destruct (py_str (VDict data)) as [text|x]; [|split; [reflexivity|exact Hs]].
  cbn. discriminate.
Qed.

Lemma MLTrainer_process_fails_before_writing method data options :
  fails_before_writing (MLTrainer.process method data options) nonempty.
Proof.
  unfold MLTrainer.process.
  destruct (String.eqb method "ml_train_model");
    [apply MLTrainer_train_model_fails_before_writing|].
  apply reads_only_fails_before_writing.
  destruct (String.eqb method "ml_predict");
    [apply MLTrainer_predict_reads_only|].
  destruct (String.eqb method "ml_evaluate_model");
    [unfold MLTrainer.evaluate_model; repeat reads_only_step|].
  destruct (String.eqb method "ml_feature_selection");
    [apply MLTrainer_feature_selection_reads_only|].
  repeat reads_only_step.
Qed.

Lemma DataAnalyzer_process_reads_only method data options :
  reads_only (DataAnalyzer.process method data options) nonempty.
Proof.
  unfold DataAnalyzer.process, DataAnalyzer.analyze_data,
    DataAnalyzer.clean_data, DataAnalyzer.transform_data,
    DataAnalyzer.cluster_data.
  cbv zeta. repeat reads_only_step.
Qed.

(** [create_network] raises, if it does, in [str(data)], before it
    writes. *)
Lemma NeuralEngine_create_network_fails_before_writing data options :
  fails_before_writing (NeuralEngine.create_network data options) nonempty.
Proof.
  intros e. unfold NeuralEngine.create_network. cbv zeta. unfold bind at 1, lift.
  pose proof (py_str_raises (VDict data)) as Hs.
  destruct (py_str (VDict data)) as [text|x]; [|split; [reflexivity|exact Hs]].
  cbn. discriminate.
Qed.

Lemma NeuralEngine_process_fails_before_writing method data options :
  fails_before_writing (NeuralEngine.process method data options) nonempty.
Proof.
  unfold NeuralEngine.process.
  destruct (String.eqb method "neural_create_network");
    [apply NeuralEngine_create_network_fails_before_writing|].
  apply reads_only_fails_before_writing.
  unfold NeuralEngine.train_network, NeuralEngine.run_inference,
    NeuralEngine.optimize_network.
  cbv zeta. repeat reads_only_step.
Qed.
End Handlers.

(** ** The dispatcher's error boundary *)

Section Boundary.
Context `{Runtime}.
Import EVAPythonCore.

(** Writing a component back where it was read changes nothing. *)
Lemma set_nlp_processor_same o : set_nlp_processor (nlp_processor o) o = o.
Proof. destruct o; reflexivity. Qed.
Lemma set_ml_trainer_same o : set_ml_trainer (ml_trainer o) o = o.
Proof. destruct o; reflexivity. Qed.
Lemma set_data_analyzer_same o : set_data_analyzer (data_analyzer o) o = o.
Proof. destruct o; reflexivity. Qed.
Lemma set_neural_engine_same o : set_neural_engine (neural_engine o) o = o.
Proof. destruct o; reflexivity. Qed.

Lemma get_capabilities_reads_only :
  reads_only (T:=NLPProcessor.t) NLPProcessor.get_capabilities any
  /\ reads_only (T:=MLTrainer.t) MLTrainer.get_capabilities any
  /\ reads_only (T:=DataAnalyzer.t) DataAnalyzer.get_capabilities any
  /\ reads_only (T:=NeuralEngine.t) NeuralEngine.get_capabilities any.
Proof. repeat split. Qed.

Lemma process_general_reads_only method data options :
  reads_only (process_general method data options) nonempty.
Proof.
  destruct get_capabilities_reads_only as (Hn & Hm & Hd & He).
  unfold process_general, on_nlp, on_ml, on_data, on_neural.
  destruct (String.eqb method "health_check"); [repeat reads_only_step|].
  destruct (String.eqb method "get_capabilities"); [|repeat reads_only_step].
  apply reads_only_bind; [|intros nlp].
  { apply on_component_reads_only; [apply set_nlp_processor_same|exact Hn]. }
  apply reads_only_bind; [|intros ml].
  { apply on_component_reads_only; [apply set_ml_trainer_same|exact Hm]. }
  apply reads_only_bind; [|intros da].
  { apply on_component_reads_only; [apply set_data_analyzer_same|exact Hd]. }
  apply reads_only_bind; [|intros ne].
  { apply on_component_reads_only; [apply set_neural_engine_same|exact He]. }
  reads_only_step.
Qed.

(** Whatever the method, the routed handler returns a non-empty mapping,
    or raises an [Exception] and leaves the dispatcher and its components
    as they were. *)
Lemma route_fails_before_writing request :
  fails_before_writing (route request) nonempty.
Proof.
  unfold route. cbv zeta.
  destruct (String.prefix "nlp_" _).
  { apply on_component_fails_before_writing; [apply set_nlp_processor_same|].
    apply reads_only_fails_before_writing, NLPProcessor_process_reads_only. }
  destruct (String.prefix "ml_" _).
  { apply on_component_fails_before_writing; [apply set_ml_trainer_same|].
    apply MLTrainer_process_fails_before_writing. }
  destruct (String.prefix "data_" _).
  { apply on_component_fails_before_writing; [apply set_data_analyzer_same|].
    apply reads_only_fails_before_writing, DataAnalyzer_process_reads_only. }
  destruct (String.prefix "neural_" _).
  { apply on_component_fails_before_writing; [apply set_neural_engine_same|].
    apply NeuralEngine_process_fails_before_writing. }
  apply reads_only_fails_before_writing, process_general_reads_only.
Qed.

(** The two responses [process_request] builds. *)
Definition success_response (request : ProcessingRequest.t) (d : dict)
  : ProcessingResponse.t :=
  {| ProcessingResponse.request_id := ProcessingRequest.request_id request;
     ProcessingResponse.success := true;
     ProcessingResponse.result := Some d;
     ProcessingResponse.error := None;
     ProcessingResponse.metadata :=
       Some [("processing_time", VFloat 0.1); ("model_used", VStr "default")] |}.

Definition failure_response (request : ProcessingRequest.t) (msg : string)
  : ProcessingResponse.t :=
  {| ProcessingResponse.request_id := ProcessingRequest.request_id request;
     ProcessingResponse.success := false;
     ProcessingResponse.result := None;
     ProcessingResponse.error := Some msg;
     ProcessingResponse.metadata := None |}.

(** [process_request] in terms of the routed handler. *)
Lemma process_request_route request e :
  match route request e with
  | (Ok d, e') =>
      nonempty d /\ process_request request e = (Ok (success_response request d), e')
  | (Raise x, e') =>
      self e' = self e /\ is_Exception (exc_type x) = true
      /\ process_request request e
         = (Ok (failure_response request (exc_str x)), e')
  end.
Proof.
  pose proof (route_fails_before_writing request e) as Hr.
  unfold process_request, try_except, bind.
  destruct (route request e) as [[d|x] e'].
  - split; [exact Hr|reflexivity].
  - destruct Hr as [Hself Hexc]. rewrite Hexc. auto.
Qed.

(** The invariant of a response: exactly one of [result] and [error] is
    there, and [success] says which. *)
Definition response_invariant (resp : ProcessingResponse.t) : Prop :=
  (ProcessingResponse.success resp = true ->
     ProcessingResponse.error resp = None
     /\ exists d, ProcessingResponse.result resp = Some d /\ d <> [])
  /\ (ProcessingResponse.success resp = false ->
        ProcessingResponse.result resp = None
        /\ exists msg, ProcessingResponse.error resp = Some msg).

Lemma process_request_returns request e :
  exists resp e',
    process_request request e = (Ok resp, e')
    /\ ProcessingResponse.request_id resp = ProcessingRequest.request_id request
    /\ response_invariant resp
    /\ (ProcessingResponse.success resp = false -> self e' = self e).
Proof.
  pose proof (process_request_route request e) as Hr.
  destruct (route request e) as [[d|x] e'].
  - destruct Hr as [Hd ->]. eexists _, _. split; [reflexivity|].
    repeat split; cbn; try discriminate; eauto.
  - destruct Hr as (Hself & _ & ->). eexists _, _. split; [reflexivity|].
    repeat split; cbn; try discriminate; eauto.
Qed.
End Boundary.

(** ** Correlation, the response invariant and totality *)

Section ErrorBoundaryClaims.
Context `{Runtime}.
Import EVAPythonCore.

(** C1: for every request, whatever its method, data, options and
    request_id, [process_request] returns a response whose request_id is the
    request's, on the success path and on the failure path alike. *)
Theorem process_request_echoes_request_id request e :
  exists resp e',
    process_request request e = (Ok resp, e')
    /\ ProcessingResponse.request_id resp = ProcessingRequest.request_id request.
Proof.
  destruct (process_request_returns request e) as (resp & e' & Hp & Hid & _).
  eauto.
Qed.

(** C2: every response of [process_request] satisfies the invariant:
    success=true comes with no error and a (non-empty) result, success=false
    with no result and an error message. *)
Theorem process_request_response_invariant request e :
  exists resp e',
    process_request request e = (Ok resp, e') /\ response_invariant resp.
Proof.
  destruct (process_request_returns request e) as (resp & e' & Hp & _ & Hinv & _).
  eauto.
Qed.

(** C3: [process_request] is total at its boundary.  It always returns a
    response and never lets an exception through: when the routed handler
    returns, the response wraps its result; when the handler raises, be it
    for an unknown method or from inside a handler, the response carries the
    message of the exception. *)
Theorem process_request_never_raises request e :
  (exists resp e', process_request request e = (Ok resp, e'))
  /\ match route request e with
     | (Ok d, e') =>
         process_request request e = (Ok (success_response request d), e')
     | (Raise x, e') =>
         process_request request e
         = (Ok (failure_response request (exc_str x)), e')
     end.
Proof.
  pose proof (process_request_route request e) as Hr.
  destruct (route request e) as [[d|x] e'].
  - destruct Hr as [_ Hp]. split; [eauto|exact Hp].
  - destruct Hr as (_ & _ & Hp). split; [eauto|exact Hp].
Qed.

(** C6: a failure is atomic.  When [process_request] answers success=false,
    the dispatcher object is what it was before the call, and so are the
    trainer's models, the engine's networks and the dispatcher's catalog.
    The two handlers that write, [train_model] and [create_network], can
    fail in [str(data)] only, which they evaluate before they write. *)
Theorem failed_request_leaves_stores request e resp e' :
  process_request request e = (Ok resp, e') ->
  ProcessingResponse.success resp = false ->
  self e' = self e
  /\ MLTrainer.models (ml_trainer (self e')) = MLTrainer.models (ml_trainer (self e))
  /\ NeuralEngine.networks (neural_engine (self e'))
     = NeuralEngine.networks (neural_engine (self e))
  /\ models (self e') = models (self e).
Proof.
  intros Hp Hfail.
  destruct (process_request_returns request e) as (resp0 & e0 & Hp0 & _ & _ & Hsame).
  rewrite Hp in Hp0. injection Hp0 as <- <-.
  rewrite (Hsame Hfail). auto.
Qed.

(** A case in point: [ml_predict] with a model id that is not in the
    trainer's store fails and changes nothing at all. *)
Lemma predict_unknown_model_fails rid data options s e :
  dict_lookup options "model_id" = Some (VStr s) ->
  MLTrainer.models (ml_trainer (self e)) !! s = None ->
  let request :=
    {| ProcessingRequest.method := "ml_predict";
       ProcessingRequest.data := data;
       ProcessingRequest.options := options;
       ProcessingRequest.request_id := rid |} in
  process_request request e
  = (Ok (failure_response request ("Model " ++ s ++ " not found")), e).
Proof.
  intros Hopt Hstore request.
  unfold process_request, try_except, bind, route. cbn.
  unfold on_ml, on_component, MLTrainer.predict, bind, get_self, dict_get. cbn.
  rewrite Hopt. cbn.
  destruct (negb (negb (String.eqb s ""))); cbn.
  - rewrite set_ml_trainer_same. destruct e; reflexivity.
  - rewrite Hstore. cbn. rewrite set_ml_trainer_same. destruct e; reflexivity.
Qed.
End ErrorBoundaryClaims.

(** ** Unknown methods *)

(** The routing table the source spells out as chains of tests: a prefix,
    the word its component puts in the error message, and the exact names
    the component answers to. *)
Definition registered_components : list (string * string * list string) :=
  [("nlp_", "NLP",
    ["nlp_analyze_text"; "nlp_extract_entities"; "nlp_sentiment_analysis";
     "nlp_generate_embeddings"]);
   ("ml_", "ML",
    ["ml_train_model"; "ml_predict"; "ml_evaluate_model"; "ml_feature_selection"]);
   ("data_", "data",
    ["data_analyze"; "data_clean"; "data_transform"; "data_cluster"]);
   ("neural_", "neural",
    ["neural_create_network"; "neural_train"; "neural_inference";
     "neural_optimize"])].

(** A method no handler answers to, with the message expected for it:
    either it carries a registered prefix and is none of that component's
    names, or it carries none and is neither introspection method. *)
Inductive unknown_method (m : string) : string -> Prop :=
| unknown_to_component p kind names :
    In (p, kind, names) registered_components ->
    String.prefix p m = true ->
    ~ In m names ->
    unknown_method m ("Unknown " ++ kind ++ " method: " ++ m)
| unknown_to_dispatcher :
    (forall p kind names,
        In (p, kind, names) registered_components -> String.prefix p m = false) ->
    m <> "health_check" ->
    m <> "get_capabilities" ->
    unknown_method m ("Unknown method: " ++ m).

Section UnknownMethods.
Context `{Runtime}.
Import EVAPythonCore.

Lemma eqb_not_in (m : string) (names : list string) (n : string) :
  ~ In m names -> In n names -> String.eqb m n = false.
Proof. intros Hm Hn. apply String.eqb_neq. intros ->. exact (Hm Hn). Qed.

Lemma on_component_raise {T C A} (get : T -> C) (set : C -> T -> T) (x : exn)
    (e : Env T) :
  (forall o, set (get o) o = o) ->
  on_component get set (raise (A:=A) x) e = (Raise x, e).
Proof. intros Hlens. unfold on_component, raise. cbn. rewrite Hlens. destruct e; reflexivity. Qed.

(** A method that starts with a prefix is the prefix followed by a rest;
    with it the other three tests compute. *)
Lemma prefix_append (p m : string) :
  String.prefix p m = true -> exists rest, m = p ++ rest.
Proof.
  revert m. induction p as [|c p IH]; intros m Hp; [exists m; reflexivity|].
  destruct m as [|c' m']; cbn in Hp; [discriminate|].
  destruct (ascii_dec c c') as [->|]; [|discriminate].
  destruct (IH m' Hp) as [rest ->]. exists rest. reflexivity.
Qed.

Lemma route_unknown request e msg :
  unknown_method (ProcessingRequest.method request) msg ->
  route request e = (Raise (Exn ValueError msg), e).
Proof.
  intros Hu. unfold route. cbv zeta.
  set (m := ProcessingRequest.method request) in *.
  destruct Hu as [p kind names Hin Hp Hnot | Hnone Hh Hg].
  - cbn in Hin.
    destruct Hin as [Hin|[Hin|[Hin|[Hin|[]]]]]; injection Hin as <- <- <-;
      destruct (prefix_append _ m Hp) as [rest Hm].
    + rewrite Hp.
      unfold on_nlp, NLPProcessor.process.
      rewrite !(eqb_not_in m _ _ Hnot) by (cbn; tauto).
      apply on_component_raise, set_nlp_processor_same.
    + assert (String.prefix "nlp_" m = false) as -> by (rewrite Hm; reflexivity).
      rewrite Hp.
      unfold on_ml, MLTrainer.process.
      rewrite !(eqb_not_in m _ _ Hnot) by (cbn; tauto).
      apply on_component_raise, set_ml_trainer_same.
    + assert (String.prefix "nlp_" m = false) as -> by (rewrite Hm; reflexivity).
      assert (String.prefix "ml_" m = false) as -> by (rewrite Hm; reflexivity).
      rewrite Hp.
      unfold on_data, DataAnalyzer.process.
      rewrite !(eqb_not_in m _ _ Hnot) by (cbn; tauto).
      apply on_component_raise, set_data_analyzer_same.
    + assert (String.prefix "nlp_" m = false) as -> by (rewrite Hm; reflexivity).
      assert (String.prefix "ml_" m = false) as -> by (rewrite Hm; reflexivity).
      assert (String.prefix "data_" m = false) as -> by (rewrite Hm; reflexivity).
      rewrite Hp.
      unfold on_neural, NeuralEngine.process.
      rewrite !(eqb_not_in m _ _ Hnot) by (cbn; tauto).
      apply on_component_raise, set_neural_engine_same.
  - rewrite (Hnone "nlp_" "NLP" _) by (cbn; tauto).
    rewrite (Hnone "ml_" "ML" _) by (cbn; tauto).
    rewrite (Hnone "data_" "data" _) by (cbn; tauto).
    rewrite (Hnone "neural_" "neural" _) by (cbn; tauto).
    unfold process_general.
    apply String.eqb_neq in Hh, Hg. rewrite Hh, Hg. reflexivity.
Qed.

(** C4: an unknown method is rejected at both levels of routing.  A method
    with a registered prefix that is none of its component's names, and a
    method without registered prefix other than health_check and
    get_capabilities, get success=false with the error message that names
    the method; nothing is changed by the call. *)
Theorem unknown_method_rejected request e msg :
  unknown_method (ProcessingRequest.method request) msg ->
  process_request request e = (Ok (failure_response request msg), e)
  /\ exists label, msg = label ++ ProcessingRequest.method request.
Proof.
  intros Hu. split.
  - pose proof (process_request_route request e) as Hr.
    rewrite (route_unknown request e msg Hu) in Hr.
    destruct Hr as (_ & _ & Hp). exact Hp.
  - destruct Hu as [p kind names Hin _ _ | _ _ _].
    + exists ("Unknown " ++ kind ++ " method: ").
      cbn in Hin.
      destruct Hin as [Hin|[Hin|[Hin|[Hin|[]]]]]; injection Hin as <- <- <-;
        reflexivity.
    + exists "Unknown method: ". reflexivity.
Qed.
End UnknownMethods.

(** ** The life cycle *)

Section LifeCycle.
Context `{Runtime}.
Import EVAPythonCore.

(** The four component initialisers, in the order [initialize] awaits
    them. *)
Definition initialize_components (c : Components) : M t unit :=
  let* _ := on_nlp (nlp_initialize c) in
  let* _ := on_ml (ml_initialize c) in
  let* _ := on_data (data_initialize c) in
  on_neural (neural_initialize c).

(** What a caller can do with the dispatcher. *)
Inductive call : Type :=
| Initialize (c : Components)
| ProcessRequest (request : ProcessingRequest.t).

(** The state a call leaves, whether it returns or raises. *)
Definition after (k : call) (e : Env t) : Env t :=
  match k with
  | Initialize c => snd (initialize_with c e)
  | ProcessRequest request => snd (process_request request e)
  end.

Definition run (ks : list call) (e : Env t) : Env t :=
  fold_left (fun e k => after k e) ks e.

(** A method of a component cannot reach the flag. *)
Lemma on_nlp_is_initialized {A} (m : M NLPProcessor.t A) e :
  is_initialized (self (snd (on_nlp m e))) = is_initialized (self e).
Proof. unfold on_nlp, on_component. destruct (m _) as [r e1]. reflexivity. Qed.

Lemma on_ml_is_initialized {A} (m : M MLTrainer.t A) e :
  is_initialized (self (snd (on_ml m e))) = is_initialized (self e).
Proof. unfold on_ml, on_component. destruct (m _) as [r e1]. reflexivity. Qed.

Lemma on_data_is_initialized {A} (m : M DataAnalyzer.t A) e :
  is_initialized (self (snd (on_data m e))) = is_initialized (self e).
Proof. unfold on_data, on_component. destruct (m _) as [r e1]. reflexivity. Qed.

Lemma on_neural_is_initialized {A} (m : M NeuralEngine.t A) e :
  is_initialized (self (snd (on_neural m e))) = is_initialized (self e).
Proof. unfold on_neural, on_component. destruct (m _) as [r e1]. reflexivity. Qed.

Lemma initialize_components_is_initialized c e :
  is_initialized (self (snd (initialize_components c e))) = is_initialized (self e).
Proof.
  unfold initialize_components, bind.
  pose proof (on_nlp_is_initialized (nlp_initialize c) e) as H1.
  destruct (on_nlp (nlp_initialize c) e) as [[[]|x] e1]; cbn in H1; [|exact H1].
  pose proof (on_ml_is_initialized (ml_initialize c) e1) as H2.
  destruct (on_ml (ml_initialize c) e1) as [[[]|x] e2]; cbn in H2;
    [|cbn; congruence].
  pose proof (on_data_is_initialized (data_initialize c) e2) as H3.
  destruct (on_data (data_initialize c) e2) as [[[]|x] e3]; cbn in H3;
    [|cbn; congruence].
  rewrite on_neural_is_initialized. congruence.
Qed.

(** [load_default_models] cannot fail. *)
Lemma load_default_models_returns e :
  exists e', load_default_models e = (Ok tt, e')
             /\ is_initialized (self e') = is_initialized (self e).
Proof. eexists. split; reflexivity. Qed.

(** [initialize] in terms of the component initialisers. *)
Lemma initialize_with_components c e :
  match initialize_components c e with
  | (Ok _, e1) =>
      exists e', initialize_with c e = (Ok tt, e')
                 /\ is_initialized (self e') = true
  | (Raise x, e1) => initialize_with c e = (Raise x, e1)
  end.
Proof.
  unfold initialize_with, initialize_components, try_except, bind.
  destruct (on_nlp (nlp_initialize c) e) as [[[]|x] e1];
    [|destruct (is_Exception (exc_type x)); reflexivity].
  destruct (on_ml (ml_initialize c) e1) as [[[]|x] e2];
    [|destruct (is_Exception (exc_type x)); reflexivity].
  destruct (on_data (data_initialize c) e2) as [[[]|x] e3];
    [|destruct (is_Exception (exc_type x)); reflexivity].
  destruct (on_neural (neural_initialize c) e3) as [[[]|x] e4];
    [|destruct (is_Exception (exc_type x)); reflexivity].
  destruct (load_default_models_returns e4) as (e5 & -> & _).
  eexists. split; reflexivity.
Qed.

Lemma route_is_initialized request e :
  is_initialized (self (snd (route request e))) = is_initialized (self e).
Proof.
  unfold route. cbv zeta.
  destruct (String.prefix "nlp_" _); [apply on_nlp_is_initialized|].
  destruct (String.prefix "ml_" _); [apply on_ml_is_initialized|].
  destruct (String.prefix "data_" _); [apply on_data_is_initialized|].
  destruct (String.prefix "neural_" _); [apply on_neural_is_initialized|].
  pose proof (process_general_reads_only (ProcessingRequest.method request)
                (ProcessingRequest.data request)
                (ProcessingRequest.options request) e) as Hg.
  destruct (process_general _ _ _ e) as [[d|x] e']; cbn;
    destruct Hg as [-> _]; reflexivity.
Qed.

Lemma process_request_is_initialized request e :
  is_initialized (self (snd (process_request request e))) = is_initialized (self e).
Proof.
  pose proof (process_request_route request e) as Hr.
  pose proof (route_is_initialized request e) as Hi.
  destruct (route request e) as [[d|x] e']; cbn in Hi.
  - destruct Hr as [_ ->]. exact Hi.
  - destruct Hr as (_ & _ & ->). exact Hi.
Qed.

Lemma after_keeps_initialized k e :
  is_initialized (self e) = true -> is_initialized (self (after k e)) = true.
Proof.
  intros Hi. destruct k as [c|request]; cbn [after].
  - pose proof (initialize_with_components c e) as Hc.
    pose proof (initialize_components_is_initialized c e) as Hs.
    destruct (initialize_components c e) as [[[]|x] e1]; cbn in Hs.
    + destruct Hc as (e' & -> & Ht). exact Ht.
    + rewrite Hc. cbn. congruence.
  - rewrite process_request_is_initialized. exact Hi.
Qed.

(** C5: when a component's [initialize] raises, so does the dispatcher's,
    with the same exception, and is_initialized keeps its value.  When the
    four components return, [initialize] returns and the flag is set, as it
    does with the components of the repository.  The flag is set by an
    [initialize] that returns, which needs the four components to have
    returned; once set, no sequence of calls clears it; and the only call
    that turns it from false to true is such an [initialize]. *)
Theorem initialize_fails_with_component c e :
  (forall x e1,
      initialize_components c e = (Raise x, e1) ->
      initialize_with c e = (Raise x, e1)
      /\ is_initialized (self e1) = is_initialized (self e))
  /\ (forall e1,
         initialize_components c e = (Ok tt, e1) ->
         exists e', initialize_with c e = (Ok tt, e')
                    /\ is_initialized (self e') = true)
  /\ (exists e', initialize e = (Ok tt, e') /\ is_initialized (self e') = true)
  /\ (forall e',
         initialize_with c e = (Ok tt, e') ->
         fst (initialize_components c e) = Ok tt
         /\ is_initialized (self e') = true)
  /\ (forall ks,
         is_initialized (self e) = true ->
         is_initialized (self (run ks e)) = true)
  /\ (forall k,
         is_initialized (self e) = false ->
         is_initialized (self (after k e)) = true ->
         exists c', k = Initialize c'
                    /\ fst (initialize_components c' e) = Ok tt
                    /\ fst (initialize_with c' e) = Ok tt).
Proof.
  split; [|split; [|split; [|split; [|split]]]].
  - intros x e1 Hraise.
    pose proof (initialize_with_components c e) as Hc.
    pose proof (initialize_components_is_initialized c e) as Hs.
    rewrite Hraise in Hc, Hs. split; [exact Hc|exact Hs].
  - intros e1 Hok.
    pose proof (initialize_with_components c e) as Hc.
    rewrite Hok in Hc. exact Hc.
  - eexists. split; reflexivity.
  - intros e' Hret.
    pose proof (initialize_with_components c e) as Hc.
    destruct (initialize_components c e) as [[[]|x] e1].
    + destruct Hc as (e2 & Hc & Ht). rewrite Hc in Hret.
      injection Hret as <-. split; [reflexivity|exact Ht].
    + rewrite Hc in Hret. discriminate.
  - intros ks. revert e. induction ks as [|k ks IH]; intros e0 Hi; [exact Hi|].
    cbn [run fold_left]. apply IH, after_keeps_initialized, Hi.
  - intros k Hf Ht. destruct k as [c'|request]; cbn [after] in Ht.
    + exists c'. split; [reflexivity|].
      pose proof (initialize_with_components c' e) as Hc.
      pose proof (initialize_components_is_initialized c' e) as Hs.
      destruct (initialize_components c' e) as [[[]|x] e1]; cbn in Hs.
      * destruct Hc as (e2 & -> & _). split; reflexivity.
      * rewrite Hc in Ht. cbn in Ht. congruence.
    + rewrite process_request_is_initialized in Ht. congruence.
Qed.
End LifeCycle.

(** ** Introspection and the concrete scenarios *)

Section Introspection.
Context `{Runtime}.
Import EVAPythonCore.

(** The components of the repository initialise without failing. *)
Lemma initialize_returns e :
  exists e', initialize e = (Ok tt, e') /\ is_initialized (self e') = true.
Proof. eexists. split; reflexivity. Qed.

(** C7: a health_check request always succeeds and reports the flag as it
    is: false on a dispatcher that [initialize] has not completed on (the
    fresh one in particular), true once [initialize] has returned. *)
Theorem health_check_reports_initialized rid data options e :
  let request :=
    {| ProcessingRequest.method := "health_check";
       ProcessingRequest.data := data;
       ProcessingRequest.options := options;
       ProcessingRequest.request_id := rid |} in
  let report (b : bool) (n : nat) : dict :=
    [("status", VStr "healthy");
     ("initialized", VBool b);
     ("models_loaded", VInt (Z.of_nat n));
     ("uptime", VStr "simulation")] in
  process_request request e
  = (Ok (success_response request
           (report (is_initialized (self e)) (size (models (self e))))), e)
  /\ (forall g,
         process_request request (mkEnv new g)
         = (Ok (success_response request (report false 0)), mkEnv new g))
  /\ (exists e',
         initialize e = (Ok tt, e')
         /\ exists n,
              process_request request e'
              = (Ok (success_response request (report true n)), e')).
Proof.
  intros request report.
  assert (forall e0, process_request request e0
            = (Ok (success_response request
                     (report (is_initialized (self e0)) (size (models (self e0))))),
               e0)) as Hany by (intros e0; reflexivity).
  split; [apply Hany|]. split.
  - intros g. rewrite Hany. reflexivity.
  - destruct (initialize_returns e) as (e' & Hi & Ht).
    exists e'. split; [exact Hi|].
    exists (size (models (self e'))). rewrite Hany, Ht. reflexivity.
Qed.

(** The text analysis counts the runs of non-blank characters. *)
Lemma analyze_text_word_count rid options (text : string) e :
  let request :=
    {| ProcessingRequest.method := "nlp_analyze_text";
       ProcessingRequest.data := [("text", VStr text)];
       ProcessingRequest.options := options;
       ProcessingRequest.request_id := rid |} in
  exists d,
    process_request request e = (Ok (success_response request d), e)
    /\ dict_lookup d "word_count"
       = Some (VInt (Z.of_nat (List.length (split_whitespace text "")))).
Proof.
  intros request. eexists. split.
  - unfold process_request, try_except, bind, route. cbn.
    unfold on_nlp, on_component, NLPProcessor.analyze_text, bind, lift, ret. cbn.
    rewrite set_nlp_processor_same. destruct e; reflexivity.
  - reflexivity.
Qed.

(** C8: nlp_analyze_text on the text "hello world" succeeds, and its
    word_count is 2, the number of tokens that whitespace separates. *)
Theorem analyze_text_hello_world e :
  let request :=
    {| ProcessingRequest.method := "nlp_analyze_text";
       ProcessingRequest.data := [("text", VStr "hello world")];
       ProcessingRequest.options := [];
       ProcessingRequest.request_id := "r2" |} in
  exists resp d,
    process_request request e = (Ok resp, e)
    /\ ProcessingResponse.success resp = true
    /\ ProcessingResponse.result resp = Some d
    /\ dict_lookup d "word_count" = Some (VInt 2)
    /\ split_whitespace "hello world" "" = ["hello"; "world"].
Proof.
  intros request.
  destruct (analyze_text_word_count "r2" [] "hello world" e) as (d & Hp & Hw).
  exists (success_response request d), d.
  split; [exact Hp|]. repeat split. exact Hw.
Qed.

(** C9: get_capabilities is idempotent and pure.  The request returns the
    same mapping in every state and leaves the state as it is, so a second
    call repeats the first; and each component's capability list is a
    constant that its method returns without touching the component. *)
Theorem get_capabilities_idempotent rid data options e :
  let request :=
    {| ProcessingRequest.method := "get_capabilities";
       ProcessingRequest.data := data;
       ProcessingRequest.options := options;
       ProcessingRequest.request_id := rid |} in
  let nlp := ["text_analysis"; "entity_extraction"; "sentiment_analysis";
              "embedding_generation"; "language_detection"] in
  let ml := ["model_training"; "prediction"; "model_evaluation";
             "feature_selection"; "hyperparameter_tuning"] in
  let da := ["data_analysis"; "data_cleaning"; "data_transformation";
             "clustering"; "statistical_analysis"] in
  let ne := ["network_creation"; "training"; "inference"; "optimization";
             "transfer_learning"] in
  let caps : dict :=
    [("nlp", VList (map VStr nlp)); ("ml", VList (map VStr ml));
     ("data", VList (map VStr da)); ("neural", VList (map VStr ne))] in
  process_request request e = (Ok (success_response request caps), e)
  /\ process_request request (snd (process_request request e))
     = process_request request e
  /\ (forall e2, fst (process_request request e2) = fst (process_request request e))
  /\ (forall c, NLPProcessor.get_capabilities c = (Ok nlp, c))
  /\ (forall c, MLTrainer.get_capabilities c = (Ok ml, c))
  /\ (forall c, DataAnalyzer.get_capabilities c = (Ok da, c))
  /\ (forall c, NeuralEngine.get_capabilities c = (Ok ne, c)).
Proof.
  intros request nlp ml da ne caps.
  assert (forall e0, process_request request e0
                     = (Ok (success_response request caps), e0)) as Hany.
  { intros [o g]. unfold process_request, try_except, bind, route. cbn.
    unfold on_nlp, on_ml, on_data, on_neural, on_component. cbn.
    rewrite set_nlp_processor_same, set_ml_trainer_same,
      set_data_analyzer_same, set_neural_engine_same. reflexivity. }
  split; [apply Hany|]. split; [rewrite !Hany; reflexivity|].
  split; [intros e2; rewrite !Hany; reflexivity|].
  repeat split.
Qed.
End Introspection.

(** ** Training, then predicting *)

Section TrainThenPredict.
Context `{Runtime}.
Import EVAPythonCore.

(** The id [train_model] computes from the text [str(data)]. *)
Definition trained_model_id (text : string) : string :=
  "model_" ++ str_of_Z (py_hash text mod 10000).

Definition train_request (rid : string) (data options : dict) : ProcessingRequest.t :=
  {| ProcessingRequest.method := "ml_train_model";
     ProcessingRequest.data := data;
     ProcessingRequest.options := options;
     ProcessingRequest.request_id := rid |}.

Definition predict_request (rid : string) (data options : dict) : ProcessingRequest.t :=
  {| ProcessingRequest.method := "ml_predict";
     ProcessingRequest.data := data;
     ProcessingRequest.options := options;
     ProcessingRequest.request_id := rid |}.

(** When [str(data)] returns, training succeeds, answers with the id and
    stores a model under it. *)
Lemma train_model_registers rid data options e text :
  py_str (VDict data) = Ok text ->
  exists d e1,
    process_request (train_request rid data options) e
    = (Ok (success_response (train_request rid data options) d), e1)
    /\ dict_lookup d "model_id" = Some (VStr (trained_model_id text))
    /\ is_Some (MLTrainer.models (ml_trainer (self e1)) !! trained_model_id text).
Proof.
  intros Hs. eexists _, _. split; [|split].
  - unfold process_request, try_except, bind, route. cbn.
    unfold on_ml, on_component, MLTrainer.train_model, bind, lift.
    cbv zeta. cbn [self np_state]. rewrite Hs. reflexivity.
  - reflexivity.
  - cbn. apply lookup_insert_is_Some. left. reflexivity.
Qed.

(** When [str(data)] raises, training fails with its message and stores
    nothing. *)
Lemma train_model_fails rid data options e x :
  py_str (VDict data) = Raise x ->
  process_request (train_request rid data options) e
  = (Ok (failure_response (train_request rid data options) (exc_str x)), e).
Proof.
  intros Hs. pose proof (py_str_raises (VDict data)) as Hx. rewrite Hs in Hx.
  cbn in Hx.
  unfold process_request, try_except, bind, route. cbn.
  unfold on_ml, on_component, MLTrainer.train_model, bind, lift.
  cbv zeta. cbn [self np_state]. rewrite Hs. cbn. rewrite Hx, set_ml_trainer_same.
  destruct e; reflexivity.
Qed.

(** Predicting with an id of the store succeeds, provided the input has a
    length; nothing is written. *)
Lemma predict_known_model rid data options m n e :
  dict_lookup options "model_id" = Some (VStr m) ->
  m <> "" ->
  is_Some (MLTrainer.models (ml_trainer (self e)) !! m) ->
  py_len (dict_get data "input" (VList [])) = Ok n ->
  exists d,
    process_request (predict_request rid data options) e
    = (Ok (success_response (predict_request rid data options) d), e)
    /\ dict_lookup d "model_id" = Some (VStr m).
Proof.
  intros Hopt Hm [v Hv] Hlen.
  apply String.eqb_neq in Hm.
  assert (dict_get options "model_id" VNone = VStr m) as Hget
    by (unfold dict_get; rewrite Hopt; reflexivity).
  eexists. split.
  - unfold process_request, try_except, bind, route. cbn.
    unfold on_ml, on_component, MLTrainer.predict, bind, get_self, lift, ret.
    cbv zeta. rewrite !Hget, Hlen. cbn. rewrite Hm. cbn. rewrite Hv.
    cbn. rewrite set_ml_trainer_same. destruct e; reflexivity.
  - reflexivity.
Qed.

(** Predicting on an input without a length fails, whatever the id. *)
Lemma predict_unsized_input_fails rid data options m e :
  dict_lookup options "model_id" = Some (VStr m) ->
  m <> "" ->
  is_Some (MLTrainer.models (ml_trainer (self e)) !! m) ->
  (exists z, dict_lookup data "input" = Some (VInt z)) ->
  process_request (predict_request rid data options) e
  = (Ok (failure_response (predict_request rid data options)
           "object of type 'int' has no len()"), e).
Proof.
  intros Hopt Hm [v Hv] [z Hz].
  apply String.eqb_neq in Hm.
  assert (dict_get options "model_id" VNone = VStr m) as Hget
    by (unfold dict_get; rewrite Hopt; reflexivity).
  assert (dict_get data "input" (VList []) = VInt z) as Hin
    by (unfold dict_get; rewrite Hz; reflexivity).
  unfold process_request, try_except, bind, route. cbn.
  unfold on_ml, on_component, MLTrainer.predict, bind, get_self, lift, ret.
  cbv zeta. rewrite !Hget, Hin. cbn. rewrite Hm. cbn. rewrite Hv.
  cbn. rewrite set_ml_trainer_same. destruct e; reflexivity.
Qed.

(** C10, amended: when ml_train_model answers success=true with model_id
    [m], an ml_predict request that follows at once with options.model_id
    [m], and whose data.input is absent or has a length (a string, a list or
    a mapping), answers success=true for the same model. *)
Theorem train_then_predict rid1 data1 options1 rid2 data2 options2 e resp1 e1 d1 m n :
  process_request (train_request rid1 data1 options1) e = (Ok resp1, e1) ->
  ProcessingResponse.success resp1 = true ->
  ProcessingResponse.result resp1 = Some d1 ->
  dict_lookup d1 "model_id" = Some (VStr m) ->
  dict_lookup options2 "model_id" = Some (VStr m) ->
  py_len (dict_get data2 "input" (VList [])) = Ok n ->
  exists d2,
    process_request (predict_request rid2 data2 options2) e1
    = (Ok (success_response (predict_request rid2 data2 options2) d2), e1)
    /\ dict_lookup d2 "model_id" = Some (VStr m).
Proof.
  intros Htrain Hsuccess Hres Hid Hopt Hlen.
  destruct (py_str (VDict data1)) as [text|x] eqn:Hs.
  2:{ rewrite (train_model_fails rid1 data1 options1 e x Hs) in Htrain.
      injection Htrain as <- _. discriminate Hsuccess. }
  destruct (train_model_registers rid1 data1 options1 e text Hs)
    as (d & e1' & Htrain' & Hid' & Hstore).
  rewrite Htrain in Htrain'. injection Htrain' as -> <-.
  cbn in Hres. injection Hres as <-.
  rewrite Hid in Hid'. injection Hid' as ->.
  apply (predict_known_model rid2 data2 options2 _ n e1 Hopt);
    [discriminate|exact Hstore|exact Hlen].
Qed.
End TrainThenPredict.

(** ** The statements at work on the example runtime *)

Section Examples.
#[local] Existing Instance toy_runtime.
Import EVAPythonCore.

Definition nlp_bogus : ProcessingRequest.t :=
  {| ProcessingRequest.method := "nlp_bogus";
     ProcessingRequest.data := [];
     ProcessingRequest.options := [];
     ProcessingRequest.request_id := "r4" |}.

Definition reboot : ProcessingRequest.t :=
  {| ProcessingRequest.method := "reboot";
     ProcessingRequest.data := [];
     ProcessingRequest.options := [];
     ProcessingRequest.request_id := "r5" |}.

(** "nlp_bogus" is stopped by the NLP component, "reboot" by the general
    handler. *)
Lemma unknown_method_rejected_witness :
  (process_request nlp_bogus toy_env
   = (Ok (failure_response nlp_bogus "Unknown NLP method: nlp_bogus"), toy_env)
   /\ exists label, "Unknown NLP method: nlp_bogus" = label ++ "nlp_bogus")
  /\ (process_request reboot toy_env
      = (Ok (failure_response reboot "Unknown method: reboot"), toy_env)
      /\ exists label, "Unknown method: reboot" = label ++ "reboot").
Proof.
  split.
  - apply (unknown_method_rejected nlp_bogus toy_env "Unknown NLP method: nlp_bogus").
    apply (unknown_to_component "nlp_bogus" "nlp_" "NLP"
             ["nlp_analyze_text"; "nlp_extract_entities";
              "nlp_sentiment_analysis"; "nlp_generate_embeddings"]).
    + left. reflexivity.
    + reflexivity.
    + cbn. intros [E|[E|[E|[E|[]]]]]; discriminate E.
  - apply (unknown_method_rejected reboot toy_env "Unknown method: reboot").
    apply (unknown_to_dispatcher "reboot").
    + cbn. intros p kind names [E|[E|[E|[E|[]]]]]; injection E as <- _ _;
        reflexivity.
    + discriminate.
    + discriminate.
Defined.

(** The trainer after one training on empty data: its store holds
    "model_6". *)
Definition trained_env : Env t :=
  snd (process_request (train_request "t1" [] []) toy_env).

Definition predict_missing : ProcessingRequest.t :=
  predict_request "r6" [] [("model_id", VStr "model_7")].

(** Data nested too deep for [repr]. *)
Definition deep_training : ProcessingRequest.t :=
  train_request "t2" [("features", VList [VList [VList [VList [VInt 1]]]])] [].

(** A training whose [str(data)] raises fails and stores nothing. *)
Lemma failed_training_stores_nothing :
  process_request deep_training trained_env
  = (Ok (failure_response deep_training
           "maximum recursion depth exceeded while getting the repr of an object"),
     trained_env).
Proof. reflexivity. Qed.

(** Asking for a model that was never trained, and training on data that
    [str] cannot print, both fail and leave "model_6" where it was. *)
Lemma failed_request_leaves_stores_witness :
  process_request predict_missing trained_env
  = (Ok (failure_response predict_missing "Model model_7 not found"), trained_env)
  /\ process_request deep_training trained_env
     = (Ok (failure_response deep_training
              "maximum recursion depth exceeded while getting the repr of an object"),
        trained_env)
  /\ MLTrainer.models (ml_trainer (self trained_env)) !! "model_6"
     = Some (VDict [("type", VStr "random_forest");
                    ("trained_at", VStr "simulation");
                    ("features", VList []);
                    ("target", VStr "unknown")])
  /\ (self trained_env = self trained_env
      /\ MLTrainer.models (ml_trainer (self trained_env))
         = MLTrainer.models (ml_trainer (self trained_env))
      /\ NeuralEngine.networks (neural_engine (self trained_env))
         = NeuralEngine.networks (neural_engine (self trained_env))
      /\ models (self trained_env) = models (self trained_env)).
Proof.
  split; [reflexivity|]. split; [reflexivity|]. split; [reflexivity|].
  apply (failed_request_leaves_stores deep_training trained_env
           (failure_response deep_training
              "maximum recursion depth exceeded while getting the repr of an object")
           trained_env); reflexivity.
Defined.

(** A trainer whose [initialize] runs out of memory. *)
Definition failing_components : Components :=
  {| nlp_initialize := NLPProcessor.initialize;
     ml_initialize := raise (Exn MemoryError "out of memory");
     data_initialize := DataAnalyzer.initialize;
     neural_initialize := NeuralEngine.initialize |}.

Lemma initialize_fails_with_component_witness :
  initialize_components failing_components toy_env
  = (Raise (Exn MemoryError "out of memory"), toy_env)
  /\ initialize_with failing_components toy_env
     = (Raise (Exn MemoryError "out of memory"), toy_env)
  /\ is_initialized (self toy_env) = false
  /\ initialize_components source_components toy_env = (Ok tt, toy_env)
  /\ exists e', initialize_with source_components toy_env = (Ok tt, e')
                /\ is_initialized (self e') = true.
Proof.
  split; [reflexivity|].
  destruct (initialize_fails_with_component failing_components toy_env)
    as [Hfail _].
  destruct (Hfail (Exn MemoryError "out of memory") toy_env eq_refl)
    as [Hraise Hflag].
  split; [exact Hraise|]. split; [reflexivity|]. split; [reflexivity|].
  destruct (initialize_fails_with_component source_components toy_env)
    as (_ & Hok & _).
  exact (Hok toy_env eq_refl).
Defined.

(** Training on empty data answers "model_6"; predicting with it on a list
    succeeds. *)
Lemma train_then_predict_witness :
  let predict :=
    predict_request "p1" [("input", VList [VInt 1])] [("model_id", VStr "model_6")] in
  exists d2,
    process_request predict trained_env
    = (Ok (success_response predict d2), trained_env)
    /\ dict_lookup d2 "model_id" = Some (VStr "model_6").
Proof.
  apply (train_then_predict "t1" [] [] "p1" [("input", VList [VInt 1])]
           [("model_id", VStr "model_6")] toy_env
           (success_response (train_request "t1" [] [])
              [("model_id", VStr "model_6");
               ("accuracy", VFloat 0.92);
               ("precision", VFloat 0.89);
               ("recall", VFloat 0.94);
               ("f1_score", VFloat 0.91);
               ("training_time", VFloat 2.5)])
           trained_env
           [("model_id", VStr "model_6");
            ("accuracy", VFloat 0.92);
            ("precision", VFloat 0.89);
            ("recall", VFloat 0.94);
            ("f1_score", VFloat 0.91);
            ("training_time", VFloat 2.5)]
           "model_6" 1%nat); reflexivity.
Defined.

(** C10 as stated fails: the same training, then ml_predict with the id it
    answered and the input 5, which has no length.  The handler raises
    TypeError and the answer is success=false. *)
Lemma train_then_predict_counterexample :
  let train := train_request "t1" [] [] in
  let predict :=
    predict_request "p1" [("input", VInt 5)] [("model_id", VStr "model_6")] in
  exists resp1 e1 d1,
    process_request train toy_env = (Ok resp1, e1)
    /\ ProcessingResponse.success resp1 = true
    /\ ProcessingResponse.result resp1 = Some d1
    /\ dict_lookup d1 "model_id" = Some (VStr "model_6")
    /\ process_request predict e1
       = (Ok (failure_response predict "object of type 'int' has no len()"), e1)
    /\ ProcessingResponse.success
         (failure_response predict "object of type 'int' has no len()") = false.
Proof. eexists _, _, _. repeat split. Qed.
End Examples.


(** * Further properties of the dispatcher and its handlers *)

(** ** Which requests write, and where *)

Section Writes.
Context `{Runtime}.
Import EVAPythonCore.

(** The id [create_network] computes from the text [str(data)]. *)
Definition created_network_id (text : string) : string :=
  "network_" ++ str_of_Z (py_hash text mod 10000).

(** The state [process_request] leaves is the one its handler leaves. *)
Lemma process_request_state request e :
  snd (process_request request e) = snd (route request e).
Proof.
  pose proof (process_request_route request e) as Hr.
  destruct (route request e) as [[d|x] e'].
  - destruct Hr as [_ ->]. reflexivity.
  - destruct Hr as (_ & _ & ->). reflexivity.
Qed.

Lemma reads_only_state {T A} (m : M T A) (Q : A -> Prop) e :
  reads_only m Q -> self (snd (m e)) = self e.
Proof. intros Hm. specialize (Hm e). destruct (m e) as [[a|x] e']; apply Hm. Qed.

Lemma on_component_state {T C A} (get : T -> C) (set : C -> T -> T)
    (m : M C A) e :
  self (snd (on_component get set m e))
  = set (self (snd (m (mkEnv (get (self e)) (np_state e))))) (self e).
Proof. unfold on_component. destruct (m _) as [r e']. reflexivity. Qed.

(** Apart from [train_model], the trainer's handlers only read. *)
Lemma MLTrainer_process_reads_only method data options :
  method <> "ml_train_model" ->
  reads_only (MLTrainer.process method data options) nonempty.
Proof.
  intros Hm. apply String.eqb_neq in Hm.
  unfold MLTrainer.process. rewrite Hm.
  destruct (String.eqb method "ml_predict");
    [apply MLTrainer_predict_reads_only|].
  destruct (String.eqb method "ml_evaluate_model");
    [unfold MLTrainer.evaluate_model; repeat reads_only_step|].
  destruct (String.eqb method "ml_feature_selection");
    [apply MLTrainer_feature_selection_reads_only|].
  repeat reads_only_step.
Qed.

(** Apart from [create_network], the engine's handlers only read. *)
Lemma NeuralEngine_process_reads_only method data options :
  method <> "neural_create_network" ->
  reads_only (NeuralEngine.process method data options) nonempty.
Proof.
  intros Hm. apply String.eqb_neq in Hm.
  unfold NeuralEngine.process. rewrite Hm.
  unfold NeuralEngine.train_network, NeuralEngine.run_inference,
    NeuralEngine.optimize_network.
  cbv zeta. repeat reads_only_step.
Qed.

Lemma route_reads_only request :
  ProcessingRequest.method request <> "ml_train_model" ->
  ProcessingRequest.method request <> "neural_create_network" ->
  reads_only (route request) nonempty.
Proof.
  intros Ht Hc. unfold route. cbv zeta.
  destruct (String.prefix "nlp_" _).
  { apply on_component_reads_only; [apply set_nlp_processor_same|].
    apply NLPProcessor_process_reads_only. }
  destruct (String.prefix "ml_" _).
  { apply on_component_reads_only; [apply set_ml_trainer_same|].
    apply MLTrainer_process_reads_only, Ht. }
  destruct (String.prefix "data_" _).
  { apply on_component_reads_only; [apply set_data_analyzer_same|].
    apply DataAnalyzer_process_reads_only. }
  destruct (String.prefix "neural_" _).
  { apply on_component_reads_only; [apply set_neural_engine_same|].
    apply NeuralEngine_process_reads_only, Hc. }
  apply process_general_reads_only.
Qed.

(** X1: only ml_train_model and neural_create_network write.  A request
    with any other method, whether it succeeds or fails, leaves the
    dispatcher and its four components exactly as they were. *)
Theorem only_training_and_creation_write request e :
  ProcessingRequest.method request <> "ml_train_model" ->
  ProcessingRequest.method request <> "neural_create_network" ->
  self (snd (process_request request e)) = self e.
Proof.
  intros Ht Hc. rewrite process_request_state.
  apply (reads_only_state _ nonempty), route_reads_only; assumption.
Qed.

(** The handler a request is routed to writes to its own component at
    most. *)
Lemma route_stays_in_component request e :
  let o := self e in
  let o' := self (snd (route request e)) in
  models o' = models o
  /\ tokenizers o' = tokenizers o
  /\ data_processors o' = data_processors o
  /\ is_initialized o' = is_initialized o
  /\ nlp_processor o' = nlp_processor o
  /\ data_analyzer o' = data_analyzer o
  /\ (String.prefix "ml_" (ProcessingRequest.method request) = false ->
      ml_trainer o' = ml_trainer o)
  /\ (String.prefix "neural_" (ProcessingRequest.method request) = false ->
      neural_engine o' = neural_engine o).
Proof.
  cbv zeta. unfold route. cbv zeta.
  set (m := ProcessingRequest.method request).
  destruct (String.prefix "nlp_" m) eqn:Hn.
  { unfold on_nlp.
    rewrite (reads_only_state _ nonempty);
      [repeat split|apply on_component_reads_only;
                      [apply set_nlp_processor_same
                      |apply NLPProcessor_process_reads_only]]. }
  destruct (String.prefix "ml_" m) eqn:Hm.
  { unfold on_ml. rewrite on_component_state. repeat split; discriminate. }
  destruct (String.prefix "data_" m) eqn:Hd.
  { unfold on_data.
    rewrite (reads_only_state _ nonempty);
      [repeat split|apply on_component_reads_only;
                      [apply set_data_analyzer_same
                      |apply DataAnalyzer_process_reads_only]]. }
  destruct (String.prefix "neural_" m) eqn:He.
  { unfold on_neural. rewrite on_component_state. repeat split; discriminate. }
  rewrite (reads_only_state _ nonempty); [repeat split|].
  apply process_general_reads_only.
Qed.

(** X2: a request stays inside its component.  No request changes the
    dispatcher's catalog, its other two tables, the initialisation flag,
    the NLP processor or the data analyzer; the trainer changes under an
    ml_ method only, the engine under a neural_ method only. *)
Theorem request_stays_in_component request e :
  let o := self e in
  let o' := self (snd (process_request request e)) in
  models o' = models o
  /\ tokenizers o' = tokenizers o
  /\ data_processors o' = data_processors o
  /\ is_initialized o' = is_initialized o
  /\ nlp_processor o' = nlp_processor o
  /\ data_analyzer o' = data_analyzer o
  /\ (String.prefix "ml_" (ProcessingRequest.method request) = false ->
      ml_trainer o' = ml_trainer o)
  /\ (String.prefix "neural_" (ProcessingRequest.method request) = false ->
      neural_engine o' = neural_engine o).
Proof.
  cbv zeta. rewrite process_request_state.
  destruct (route_stays_in_component request e)
    as (Hm & Ht & Hd & Hi & Hn & Ha & Hml & Hne).
  repeat split; assumption.
Qed.

(** What a call of the trainer does to its store: nothing, or one entry
    written under the id of the data. *)
Lemma MLTrainer_process_store method data options e :
  let store := MLTrainer.models (self e) in
  let store' :=
    MLTrainer.models (self (snd (MLTrainer.process method data options e))) in
  store' = store \/ exists text v, store' = <[trained_model_id text:=v]> store.
Proof.
  cbv zeta. destruct (String.eqb_spec method "ml_train_model") as [->|Hm].
  - unfold MLTrainer.process. cbn [String.eqb Ascii.eqb Bool.eqb].
    unfold MLTrainer.train_model. cbv zeta. unfold bind at 1, lift.
    destruct (py_str (VDict data)) as [text|x]; [|left; reflexivity].
    right. eexists _, _. reflexivity.
  - left. f_equal.
    apply (reads_only_state _ nonempty), MLTrainer_process_reads_only, Hm.
Qed.

Lemma NeuralEngine_process_store method data options e :
  let store := NeuralEngine.networks (self e) in
  let store' :=
    NeuralEngine.networks (self (snd (NeuralEngine.process method data options e))) in
  store' = store \/ exists text v, store' = <[created_network_id text:=v]> store.
Proof.
  cbv zeta. destruct (String.eqb_spec method "neural_create_network") as [->|Hm].
  - unfold NeuralEngine.process. cbn [String.eqb Ascii.eqb Bool.eqb].
    unfold NeuralEngine.create_network. cbv zeta. unfold bind at 1, lift.
    destruct (py_str (VDict data)) as [text|x]; [|left; reflexivity].
    right. eexists _, _. reflexivity.
  - left. f_equal.
    apply (reads_only_state _ nonempty), NeuralEngine_process_reads_only, Hm.
Qed.

(** The two stores across a request: each is as before or has one entry
    written. *)
Lemma process_request_stores request e :
  let o := self e in
  let o' := self (snd (process_request request e)) in
  (MLTrainer.models (ml_trainer o') = MLTrainer.models (ml_trainer o)
   \/ exists text v, MLTrainer.models (ml_trainer o')
                     = <[trained_model_id text:=v]>
                         (MLTrainer.models (ml_trainer o)))
  /\ (NeuralEngine.networks (neural_engine o')
      = NeuralEngine.networks (neural_engine o)
      \/ exists text v, NeuralEngine.networks (neural_engine o')
                        = <[created_network_id text:=v]>
                            (NeuralEngine.networks (neural_engine o))).
Proof.
  cbv zeta.
  rewrite process_request_state.
  destruct (route_stays_in_component request e)
    as (_ & _ & _ & _ & _ & _ & Hml & Hne).
  split.
  - destruct (String.prefix "ml_" (ProcessingRequest.method request)) eqn:Hm;
      [|left; rewrite Hml; reflexivity].
    unfold route. cbv zeta.
    destruct (prefix_append _ _ Hm) as [rest Hrest].
    assert (String.prefix "nlp_" (ProcessingRequest.method request) = false)
      as -> by (rewrite Hrest; reflexivity).
    rewrite Hm. unfold on_ml. rewrite on_component_state. cbn.
    apply MLTrainer_process_store.
  - destruct (String.prefix "neural_" (ProcessingRequest.method request)) eqn:Hm;
      [|left; rewrite Hne; reflexivity].
    unfold route. cbv zeta.
    destruct (prefix_append _ _ Hm) as [rest Hrest].
    assert (String.prefix "nlp_" (ProcessingRequest.method request) = false)
      as -> by (rewrite Hrest; reflexivity).
    assert (String.prefix "ml_" (ProcessingRequest.method request) = false)
      as -> by (rewrite Hrest; reflexivity).
    assert (String.prefix "data_" (ProcessingRequest.method request) = false)
      as -> by (rewrite Hrest; reflexivity).
    rewrite Hm. unfold on_neural. rewrite on_component_state. cbn.
    apply NeuralEngine_process_store.
Qed.

Lemma store_written (s s' : gmap string pyval) :
  (s' = s \/ exists k v, s' = <[k:=v]> s) ->
  dom s ⊆ dom s' /\ size s' <= S (size s).
Proof.
  intros [->|(k & v & ->)]; [split; [reflexivity|lia]|].
  split; [apply dom_insert_subseteq|].
  destruct (s !! k) as [w|] eqn:Hk.
  - rewrite <- (insert_id s k w Hk) at 2.
    rewrite <- !size_dom, !dom_insert_L. lia.
  - rewrite map_size_insert_None by exact Hk. lia.
Qed.

(** X3: nothing is ever forgotten.  Whatever the request, every model id
    of the trainer's store and every network id of the engine's store is
    still there after it, and a store grows by one entry at most. *)
Theorem stores_only_grow request e :
  let o := self e in
  let o' := self (snd (process_request request e)) in
  dom (MLTrainer.models (ml_trainer o)) ⊆ dom (MLTrainer.models (ml_trainer o'))
  /\ dom (NeuralEngine.networks (neural_engine o))
     ⊆ dom (NeuralEngine.networks (neural_engine o'))
  /\ size (MLTrainer.models (ml_trainer o'))
     <= S (size (MLTrainer.models (ml_trainer o)))
  /\ size (NeuralEngine.networks (neural_engine o'))
     <= S (size (NeuralEngine.networks (neural_engine o))).
Proof.
  cbv zeta. destruct (process_request_stores request e) as [Hml Hne].
  assert (forall (s s' : gmap string pyval) (key : string -> string),
             (s' = s \/ exists text v, s' = <[key text:=v]> s) ->
             s' = s \/ exists k v, s' = <[k:=v]> s) as Hany
    by (intros s s' key [->|(text & v & ->)]; eauto).
  destruct (store_written _ _ (Hany _ _ _ Hml)) as [Hd1 Hs1].
  destruct (store_written _ _ (Hany _ _ _ Hne)) as [Hd2 Hs2].
  auto.
Qed.
End Writes.

(** ** The trainer's and the engine's stores *)

Section Stores.
Context `{Runtime}.
Import EVAPythonCore.

(** The record [train_model] stores. *)
Definition model_record (data options : dict) : pyval :=
  VDict [("type", dict_get options "model_type" (VStr "random_forest"));
         ("trained_at", VStr "simulation");
         ("features", dict_get data "features" (VList []));
         ("target", dict_get data "target" (VStr "unknown"))].

(** The record [create_network] stores. *)
Definition network_record (data : dict) : pyval :=
  VDict [("architecture", dict_get data "architecture" (VStr "feedforward"));
         ("layers", dict_get data "layers" (VList [VInt 64; VInt 32; VInt 16]));
         ("activation", dict_get data "activation" (VStr "relu"));
         ("created_at", VStr "simulation")].

Definition create_request (rid : string) (data options : dict)
  : ProcessingRequest.t :=
  {| ProcessingRequest.method := "neural_create_network";
     ProcessingRequest.data := data;
     ProcessingRequest.options := options;
     ProcessingRequest.request_id := rid |}.

(** A training whose [str(data)] returns [text]. *)
Lemma train_request_computes rid data options e text :
  py_str (VDict data) = Ok text ->
  process_request (train_request rid data options) e
  = (Ok (success_response (train_request rid data options)
           [("model_id", VStr (trained_model_id text));
            ("accuracy", VFloat 0.92);
            ("precision", VFloat 0.89);
            ("recall", VFloat 0.94);
            ("f1_score", VFloat 0.91);
            ("training_time", VFloat 2.5)]),
     mkEnv
       (set_ml_trainer
          {| MLTrainer.models :=
               <[trained_model_id text := model_record data options]>
                 (MLTrainer.models (ml_trainer (self e)));
             MLTrainer.scalers := MLTrainer.scalers (ml_trainer (self e)) |}
          (self e))
       (np_state e)).
Proof.
  intros Hs. unfold process_request, try_except, bind, route. cbn.
  unfold on_ml, on_component, MLTrainer.train_model, bind, lift.
  cbv zeta. cbn [self np_state]. rewrite Hs. reflexivity.
Qed.

(** A creation whose [str(data)] returns [text]. *)
Lemma create_request_computes rid data options e text :
  py_str (VDict data) = Ok text ->
  process_request (create_request rid data options) e
  = (Ok (success_response (create_request rid data options)
           [("network_id", VStr (created_network_id text));
            ("architecture", dict_get data "architecture" (VStr "feedforward"));
            ("parameters", VInt 15840);
            ("memory_usage", VStr "2.5MB")]),
     mkEnv
       (set_neural_engine
          {| NeuralEngine.networks :=
               <[created_network_id text := network_record data]>
                 (NeuralEngine.networks (neural_engine (self e))) |}
          (self e))
       (np_state e)).
Proof.
  intros Hs. unfold process_request, try_except, bind, route. cbn.
  unfold on_neural, on_component, NeuralEngine.create_network, bind, lift.
  cbv zeta. cbn [self np_state]. rewrite Hs. reflexivity.
Qed.

(** A creation whose [str(data)] raises. *)
Lemma create_network_fails rid data options e x :
  py_str (VDict data) = Raise x ->
  process_request (create_request rid data options) e
  = (Ok (failure_response (create_request rid data options) (exc_str x)), e).
Proof.
  intros Hs. pose proof (py_str_raises (VDict data)) as Hx. rewrite Hs in Hx.
  cbn in Hx.
  unfold process_request, try_except, bind, route. cbn.
  unfold on_neural, on_component, NeuralEngine.create_network, bind, lift.
  cbv zeta. cbn [self np_state]. rewrite Hs. cbn.
  rewrite Hx, set_neural_engine_same. destruct e; reflexivity.
Qed.

(** X4: ml_train_model succeeds exactly when [str(data)] can be computed.
    It then answers the id computed from that text and files under it a
    record of the requested model type (random_forest when none is given),
    the features and the target, and every other model of the store is as
    it was.  When [str(data)] raises, as on a nesting too deep, the request
    fails with the message of that exception and nothing at all is
    changed. *)
Theorem train_model_files_record rid data options e :
  let request := train_request rid data options in
  let store := MLTrainer.models (ml_trainer (self e)) in
  let store' :=
    MLTrainer.models (ml_trainer (self (snd (process_request request e)))) in
  match py_str (VDict data) with
  | Ok text =>
      (exists d,
          fst (process_request request e) = Ok (success_response request d)
          /\ dict_lookup d "model_id" = Some (VStr (trained_model_id text)))
      /\ store' !! trained_model_id text
         = Some (VDict [("type",
                         dict_get options "model_type" (VStr "random_forest"));
                        ("trained_at", VStr "simulation");
                        ("features", dict_get data "features" (VList []));
                        ("target", dict_get data "target" (VStr "unknown"))])
      /\ (forall k, k <> trained_model_id text -> store' !! k = store !! k)
  | Raise x =>
      process_request request e = (Ok (failure_response request (exc_str x)), e)
  end.
Proof.
  cbv zeta. destruct (py_str (VDict data)) as [text|x] eqn:Hs.
  - rewrite (train_request_computes rid data options e text Hs).
    cbn [fst snd self ml_trainer set_ml_trainer MLTrainer.models].
    split; [eexists; split; reflexivity|]. split.
    + apply lookup_insert_eq.
    + intros k Hk. apply lookup_insert_ne. congruence.
  - apply train_model_fails, Hs.
Qed.

(** X5: the id of a model depends on the data alone, through
    [hash(str(data)) % 10000].  When two trainings succeed one after the
    other on data with the same id, the later one replaces the model of
    the earlier one, whatever the options: the store keeps its ids and its
    size, and holds the later record. *)
Theorem retraining_replaces_model rid1 rid2 data1 data2 options1 options2 e
    text1 text2 :
  py_str (VDict data1) = Ok text1 ->
  py_str (VDict data2) = Ok text2 ->
  trained_model_id text2 = trained_model_id text1 ->
  let e1 := snd (process_request (train_request rid1 data1 options1) e) in
  let e2 := snd (process_request (train_request rid2 data2 options2) e1) in
  let store1 := MLTrainer.models (ml_trainer (self e1)) in
  let store2 := MLTrainer.models (ml_trainer (self e2)) in
  store2 !! trained_model_id text1 = Some (model_record data2 options2)
  /\ dom store2 = dom store1
  /\ size store2 = size store1.
Proof.
  intros Hs1 Hs2 Hid. cbv zeta.
  rewrite (train_request_computes rid2 data2 options2 _ text2 Hs2).
  rewrite (train_request_computes rid1 data1 options1 _ text1 Hs1).
  cbn [snd self ml_trainer set_ml_trainer MLTrainer.models]. rewrite Hid.
  split; [apply lookup_insert_eq|].
  assert (dom (<[trained_model_id text1:=model_record data2 options2]>
                 (<[trained_model_id text1:=model_record data1 options1]>
                    (MLTrainer.models (ml_trainer (self e)))))
          = dom (<[trained_model_id text1:=model_record data1 options1]>
                   (MLTrainer.models (ml_trainer (self e))))) as Hdom
    by (rewrite insert_insert_eq, !dom_insert_L; reflexivity).
  split; [exact Hdom|]. rewrite <- !size_dom, Hdom. reflexivity.
Qed.

(** X6: neural_create_network succeeds exactly when [str(data)] can be
    computed.  It then answers the id computed from that text and the
    architecture, and files the network's record under the id: the
    architecture, layers and activation of the data, or feedforward,
    [64, 32, 16] and relu; every other network is as it was.  When
    [str(data)] raises, the request fails with the message of that
    exception and nothing at all is changed. *)
Theorem create_network_files_record rid data options e :
  let request := create_request rid data options in
  let store := NeuralEngine.networks (neural_engine (self e)) in
  let store' :=
    NeuralEngine.networks (neural_engine (self (snd (process_request request e)))) in
  match py_str (VDict data) with
  | Ok text =>
      (exists d,
          fst (process_request request e) = Ok (success_response request d)
          /\ dict_lookup d "network_id" = Some (VStr (created_network_id text))
          /\ dict_lookup d "architecture"
             = Some (dict_get data "architecture" (VStr "feedforward")))
      /\ store' !! created_network_id text
         = Some (VDict [("architecture",
                         dict_get data "architecture" (VStr "feedforward"));
                        ("layers",
                         dict_get data "layers" (VList [VInt 64; VInt 32; VInt 16]));
                        ("activation", dict_get data "activation" (VStr "relu"));
                        ("created_at", VStr "simulation")])
      /\ (forall k, k <> created_network_id text -> store' !! k = store !! k)
  | Raise x =>
      process_request request e = (Ok (failure_response request (exc_str x)), e)
  end.
Proof.
  cbv zeta. destruct (py_str (VDict data)) as [text|x] eqn:Hs.
  - rewrite (create_request_computes rid data options e text Hs).
    cbn [fst snd self neural_engine set_neural_engine NeuralEngine.networks].
    split; [eexists; repeat split; reflexivity|]. split.
    + apply lookup_insert_eq.
    + intros k Hk. apply lookup_insert_ne. congruence.
  - apply create_network_fails, Hs.
Qed.
End Stores.

(** ** How many models a store can hold *)

Section StoreBound.
Context `{Runtime}.
Import EVAPythonCore.

(** The strings [prefix ++ n] for [n] below [bound]. *)
Definition numbered (prefix : string) (bound : nat) : gset string :=
  list_to_set ((fun n => prefix ++ str_of_nat n) <$> seq 0 bound).

Lemma size_list_to_set_le (l : list string) :
  size (list_to_set l : gset string) <= List.length l.
Proof.
  induction l as [|x l IH]; [rewrite list_to_set_nil, size_empty; lia|].
  rewrite list_to_set_cons, size_union_alt, size_singleton. cbn [List.length].
  assert (list_to_set l ∖ {[x]} ⊆ (list_to_set l : gset string)) as Hsub
    by (apply subseteq_difference_l; reflexivity).
  apply subseteq_size in Hsub. lia.
Qed.

Lemma size_numbered prefix bound : size (numbered prefix bound) <= bound.
Proof.
  unfold numbered.
  etransitivity; [apply size_list_to_set_le|].
  rewrite length_fmap, length_seq. lia.
Qed.

Lemma elem_of_numbered prefix bound k :
  k ∈ numbered prefix bound <->
  exists n, n < bound /\ k = prefix ++ str_of_nat n.
Proof.
  unfold numbered. rewrite elem_of_list_to_set, list_elem_of_fmap.
  split.
  - intros (n & -> & Hn). apply elem_of_seq in Hn. exists n. split; [lia|reflexivity].
  - intros (n & Hn & ->). exists n. split; [reflexivity|]. apply elem_of_seq. lia.
Qed.

(** An id is its prefix and a number below 10000. *)
Lemma hashed_id_numbered prefix (z : Z) :
  prefix ++ str_of_Z (z mod 10000) ∈ numbered prefix (Z.to_nat 10000).
Proof.
  apply elem_of_numbered. exists (Z.to_nat (z mod 10000)).
  pose proof (Z.mod_pos_bound z 10000 ltac:(lia)) as Hb.
  split; [lia|]. unfold str_of_nat. rewrite Z2Nat.id by lia. reflexivity.
Qed.

Lemma dom_empty_subseteq (X : gset string) :
  dom (∅ : gmap string pyval) ⊆ X.
Proof. rewrite dom_empty_L. apply empty_subseteq. Qed.

(** Requests served one after the other. *)
Definition serve (requests : list ProcessingRequest.t) (e : Env t) : Env t :=
  fold_left (fun e request => snd (process_request request e)) requests e.

Definition stores_numbered (e : Env t) : Prop :=
  dom (MLTrainer.models (ml_trainer (self e)))
    ⊆ numbered "model_" (Z.to_nat 10000)
  /\ dom (NeuralEngine.networks (neural_engine (self e)))
     ⊆ numbered "network_" (Z.to_nat 10000).

Lemma process_request_stores_numbered request e :
  stores_numbered e -> stores_numbered (snd (process_request request e)).
Proof.
  intros [Hm Hn]. destruct (process_request_stores request e) as [Hml Hne].
  cbv zeta in Hml, Hne. split.
  - destruct Hml as [->|(text & v & ->)]; [exact Hm|].
    rewrite dom_insert_L. apply union_least; [|exact Hm].
    apply singleton_subseteq_l, hashed_id_numbered.
  - destruct Hne as [->|(text & v & ->)]; [exact Hn|].
    rewrite dom_insert_L. apply union_least; [|exact Hn].
    apply singleton_subseteq_l, hashed_id_numbered.
Qed.

Lemma serve_stores_numbered requests e :
  stores_numbered e -> stores_numbered (serve requests e).
Proof.
  revert e. induction requests as [|request requests IH]; intros e He; [exact He|].
  cbn [serve fold_left]. apply IH, process_request_stores_numbered, He.
Qed.

Lemma initialize_stores e :
  ml_trainer (self (snd (initialize e))) = ml_trainer (self e)
  /\ neural_engine (self (snd (initialize e))) = neural_engine (self e).
Proof. destruct e as [[] g]. split; reflexivity. Qed.

(** X7: ids wrap around at 10000, so the stores are bounded.  On a
    dispatcher started afresh, initialised or not, and after any sequence
    of requests, every model id is "model_" and a number below 10000, every
    network id is "network_" and a number below 10000, and neither store
    holds more than 10000 entries. *)
Theorem stores_hold_at_most_10000 (initialised : bool) requests g :
  let e0 := if initialised then snd (initialize (mkEnv new g)) else mkEnv new g in
  let e := serve requests e0 in
  let store := MLTrainer.models (ml_trainer (self e)) in
  let nets := NeuralEngine.networks (neural_engine (self e)) in
  (forall k, is_Some (store !! k) ->
             exists z, (0 <= z < 10000)%Z /\ k = "model_" ++ str_of_Z z)
  /\ (forall k, is_Some (nets !! k) ->
                exists z, (0 <= z < 10000)%Z /\ k = "network_" ++ str_of_Z z)
  /\ (Z.of_nat (size store) <= 10000)%Z
  /\ (Z.of_nat (size nets) <= 10000)%Z.
Proof.
  cbv zeta.
  set (e0 := if initialised then snd (initialize (mkEnv new g)) else mkEnv new g).
  assert (stores_numbered e0) as H0.
  { unfold stores_numbered, e0. destruct initialised.
    - destruct (initialize_stores (mkEnv new g)) as [-> ->].
      cbn [self ml_trainer neural_engine new MLTrainer.new NeuralEngine.new
             MLTrainer.models NeuralEngine.networks].
      split; apply dom_empty_subseteq.
    - cbn [self ml_trainer neural_engine new MLTrainer.new NeuralEngine.new
             MLTrainer.models NeuralEngine.networks].
      split; apply dom_empty_subseteq. }
  destruct (serve_stores_numbered requests e0 H0) as [Hm Hn].
  assert (forall prefix k, k ∈ numbered prefix (Z.to_nat 10000) ->
            exists z, (0 <= z < 10000)%Z /\ k = prefix ++ str_of_Z z) as Hid.
  { intros prefix k Hk. apply elem_of_numbered in Hk as (n & Hlt & ->).
    exists (Z.of_nat n). split; [lia|reflexivity]. }
  split; [|split; [|split]].
  - intros k Hk. apply Hid, Hm, elem_of_dom, Hk.
  - intros k Hk. apply Hid, Hn, elem_of_dom, Hk.
  - rewrite <- size_dom. apply subseteq_size in Hm.
    pose proof (size_numbered "model_" (Z.to_nat 10000)). lia.
  - rewrite <- size_dom. apply subseteq_size in Hn.
    pose proof (size_numbered "network_" (Z.to_nat 10000)). lia.
Qed.
End StoreBound.

(** ** Prediction *)

Section Prediction.
Context `{Runtime}.
Import EVAPythonCore.

(** What ml_predict answers, case by case: the id test, then the length
    of the input. *)
Lemma predict_request_computes rid data options e :
  let model_id := dict_get options "model_id" VNone in
  let input_data := dict_get data "input" (VList []) in
  let request := predict_request rid data options in
  process_request request e
  = (Ok match (if negb (truthy model_id) then Ok true
               else MLTrainer.not_in_models model_id (ml_trainer (self e))) with
        | Raise x => failure_response request (exc_str x)
        | Ok true =>
            failure_response request
              match py_str model_id with
              | Ok text => "Model " ++ text ++ " not found"
              | Raise x => exc_str x
              end
        | Ok false =>
            match py_len input_data with
            | Raise x => failure_response request (exc_str x)
            | Ok n =>
                success_response request
                  [("predictions",
                    VList (if (0 <? n)%nat
                           then [VFloat 0.1; VFloat 0.7; VFloat 0.2] else []));
                   ("confidence", VFloat 0.85);
                   ("model_id", model_id);
                   ("prediction_time", VFloat 0.05)]
            end
        end, e).
Proof.
  cbv zeta.
  pose proof (not_in_models_raises (dict_get options "model_id" VNone)
                (ml_trainer (self e))) as Hid.
  pose proof (py_len_raises (dict_get data "input" (VList []))) as Hlen.
  pose proof (py_str_raises (dict_get options "model_id" VNone)) as Hstr.
  unfold process_request, try_except, bind, route. cbn.
  unfold on_ml, on_component, MLTrainer.predict, bind, get_self, lift, ret, raise.
  cbv zeta. cbn [self np_state].
  destruct (negb (truthy (dict_get options "model_id" VNone))).
  { destruct (py_str _) as [text|x]; cbn in Hstr |- *; [|rewrite Hstr];
      rewrite set_ml_trainer_same; destruct e; reflexivity. }
  destruct (MLTrainer.not_in_models _ _) as [[|]|x]; cbn in Hid |- *.
  - destruct (py_str _) as [text|x]; cbn in Hstr |- *; [|rewrite Hstr];
      rewrite set_ml_trainer_same; destruct e; reflexivity.
  - destruct (py_len _) as [n|x]; cbn in Hlen |- *;
      [|rewrite Hlen]; rewrite set_ml_trainer_same; destruct e; reflexivity.
  - rewrite Hid, set_ml_trainer_same. destruct e; reflexivity.
Qed.

(** The ids ml_predict accepts: the non-empty strings of the store. *)
Definition known_model (v : pyval) (trainer : MLTrainer.t) : Prop :=
  exists s, v = VStr s /\ s <> "" /\ is_Some (MLTrainer.models trainer !! s).

Lemma known_model_test v trainer :
  known_model v trainer <->
  (if negb (truthy v) then Ok true else MLTrainer.not_in_models v trainer)
  = Ok false.
Proof.
  unfold known_model. split.
  - intros (s & -> & Hs & [w Hw]). cbn.
    apply String.eqb_neq in Hs. rewrite Hs. cbn. rewrite Hw. reflexivity.
  - destruct v as [|b|z|f|s|l|d]; cbn.
    + discriminate.
    + destruct b; discriminate.
    + destruct (Z.eqb z 0); discriminate.
    + destruct (PrimFloat.eqb f 0); discriminate.
    + destruct (String.eqb_spec s ""); cbn; [discriminate|].
      destruct (MLTrainer.models trainer !! s) as [w|] eqn:Hw; [|discriminate].
      intros _. exists s. eauto.
    + destruct l; discriminate.
    + destruct d; discriminate.
Qed.

(** X8: ml_predict succeeds exactly when options.model_id is a non-empty
    string that is an id of the trainer's store and data.input (an empty
    list when absent) has a length; in every case the dispatcher is left
    unchanged. *)
Theorem predict_succeeds_iff rid data options e :
  let request := predict_request rid data options in
  (exists resp,
      process_request request e = (Ok resp, e)
      /\ (ProcessingResponse.success resp = true <->
          known_model (dict_get options "model_id" VNone) (ml_trainer (self e))
          /\ exists n, py_len (dict_get data "input" (VList [])) = Ok n)).
Proof.
  cbv zeta. rewrite predict_request_computes. cbv zeta.
  eexists. split; [reflexivity|].
  rewrite known_model_test.
  destruct (if negb (truthy _) then _ else _) as [[|]|x]; cbn.
  - split; [discriminate|]. intros [Hk _]. discriminate Hk.
  - destruct (py_len _) as [n|x]; cbn.
    + split; eauto.
    + split; [discriminate|]. intros [_ [n Hn]]. discriminate Hn.
  - split; [discriminate|]. intros [Hk _]. discriminate Hk.
Qed.

(** X9: the prediction is simulated.  For a known model the answer is the
    same three numbers whatever the model and whatever the input holds, as
    long as the input is not empty, and no number at all when it is empty
    or absent; the id is echoed. *)
Theorem predictions_depend_on_emptiness rid data options e n :
  known_model (dict_get options "model_id" VNone) (ml_trainer (self e)) ->
  py_len (dict_get data "input" (VList [])) = Ok n ->
  let request := predict_request rid data options in
  process_request request e
  = (Ok (success_response request
           [("predictions",
             VList (match n with
                    | O => []
                    | S _ => [VFloat 0.1; VFloat 0.7; VFloat 0.2]
                    end));
            ("confidence", VFloat 0.85);
            ("model_id", dict_get options "model_id" VNone);
            ("prediction_time", VFloat 0.05)]), e).
Proof.
  intros Hk Hn. cbv zeta. rewrite predict_request_computes. cbv zeta.
  apply known_model_test in Hk. rewrite Hk, Hn. destruct n; reflexivity.
Qed.

(** X10: an id ml_predict does not know fails the request, and nothing
    is changed.  A non-empty list or mapping, which cannot be a key, gets
    "unhashable type".  Any other id gets "Model <id> not found" with the
    text [str(id)], so "Model None not found" when options has no model_id
    and "Model  not found" for the empty string; when [str(id)] itself
    raises, as on an integer of too many digits, the message is that
    exception's. *)
Theorem predict_rejects_unknown_id rid data options e :
  let model_id := dict_get options "model_id" VNone in
  ~ known_model model_id (ml_trainer (self e)) ->
  let request := predict_request rid data options in
  process_request request e
  = (Ok (failure_response request
           match model_id with
           | VList (_ :: _) | VDict (_ :: _) =>
               "unhashable type: '" ++ type_name model_id ++ "'"
           | VNone => "Model None not found"
           | VStr s => "Model " ++ s ++ " not found"
           | _ =>
               match py_str model_id with
               | Ok text => "Model " ++ text ++ " not found"
               | Raise x => exc_str x
               end
           end), e).
Proof.
  cbv zeta. intros Hk. rewrite predict_request_computes. cbv zeta.
  rewrite known_model_test in Hk.
  destruct (dict_get options "model_id" VNone) as [|b|z|f|s|l|d]; cbn in Hk |- *.
  - reflexivity.
  - destruct b; reflexivity.
  - destruct (Z.eqb z 0); reflexivity.
  - destruct (PrimFloat.eqb f 0); reflexivity.
  - destruct (String.eqb s ""); cbn in Hk |- *; [reflexivity|].
    destruct (MLTrainer.models (ml_trainer (self e)) !! s); [|reflexivity].
    exfalso. apply Hk. reflexivity.
  - destruct l; reflexivity.
  - destruct d; reflexivity.
Qed.
End Prediction.

(** ** Text analysis *)

(** How often a byte occurs. *)
Fixpoint count_char (c : ascii) (s : string) : nat :=
  match s with
  | "" => 0
  | String a s' => (if Ascii.eqb a c then 1 else 0) + count_char c s'
  end.

(** The runs of [split_words], each as the list of its characters; [cur]
    is the run being read. *)
Fixpoint group_words (cs : list string) (cur : list string)
  : list (list string) :=
  match cs with
  | [] => match cur with [] => [] | _ => [cur] end
  | ch :: cs' =>
      if py_isspace ch
      then match cur with
           | [] => group_words cs' []
           | _ => cur :: group_words cs' []
           end
      else group_words cs' (cur ++ [ch])%list
  end.

Lemma string_app_nil_r (s : string) : s ++ "" = s.
Proof.
  induction s as [|c s IH]; [reflexivity|].
  change (String c (s ++ "") = String c s). f_equal. exact IH.
Qed.

Lemma string_app_assoc (s t u : string) : (s ++ t) ++ u = s ++ t ++ u.
Proof.
  induction s as [|c s IH]; [reflexivity|].
  change (String c ((s ++ t) ++ u) = String c (s ++ t ++ u)). f_equal. exact IH.
Qed.

Lemma string_app_nonempty (s t : string) : s <> "" -> s ++ t <> "".
Proof. destruct s; [congruence|discriminate]. Qed.

Lemma length_split_on (c : ascii) (s field : string) :
  List.length (split_on c s field) = S (count_char c s).
Proof.
  revert field. induction s as [|a s IH]; intros field; cbn; [reflexivity|].
  destruct (Ascii.eqb a c); cbn; rewrite IH; reflexivity.
Qed.

(** ['.'.join(s.split('.'))] is [s], with any separator. *)
Lemma concat_split_on (c : ascii) (s field : string) :
  String.concat (String c "") (split_on c s field) = field ++ s.
Proof.
  revert field. induction s as [|a s IH]; intros field; cbn [split_on].
  - cbn [String.concat]. rewrite string_app_nil_r. reflexivity.
  - destruct (Ascii.eqb_spec a c) as [->|Hne].
    + specialize (IH ""). cbn [String.concat].
      destruct (split_on c s "") as [|x xs] eqn:Hs.
      * pose proof (length_split_on c s "") as Hl. rewrite Hs in Hl. discriminate.
      * rewrite IH. reflexivity.
    + rewrite IH, string_app_assoc. reflexivity.
Qed.

(** A text has at most as many words as characters. *)
Lemma length_split_words (cs : list string) (word : string) :
  List.length (split_words cs word)
  <= List.length cs + (if String.eqb word "" then 0 else 1).
Proof.
  revert word. induction cs as [|ch cs IH]; intros word; cbn [split_words].
  - destruct (String.eqb word ""); cbn; lia.
  - cbn [List.length]. destruct (py_isspace ch).
    + specialize (IH ""). cbn in IH.
      destruct (String.eqb word ""); cbn [List.length]; lia.
    + specialize (IH (word ++ ch)).
      destruct (String.eqb (word ++ ch) ""); destruct (String.eqb word ""); lia.
Qed.

(** No character of a string is empty. *)
Lemma chars_from_nonempty (s cur : string) :
  Forall (fun ch => ch <> "") (chars_from s cur).
Proof.
  revert cur. induction s as [|b s IH]; intros cur; cbn [chars_from].
  - destruct (String.eqb_spec cur ""); auto.
  - destruct (is_continuation b); [apply IH|].
    destruct (String.eqb_spec cur ""); [apply IH|].
    constructor; [assumption|apply IH].
Qed.

Lemma concat_empty_cons (x : string) (xs : list string) :
  String.concat "" (x :: xs) = x ++ String.concat "" xs.
Proof.
  destruct xs; cbn [String.concat]; [rewrite string_app_nil_r|]; reflexivity.
Qed.

Lemma concat_empty_snoc (xs : list string) (x : string) :
  String.concat "" (xs ++ [x])%list = String.concat "" xs ++ x.
Proof.
  induction xs as [|y ys IH]; [reflexivity|].
  change (((y :: ys) ++ [x])%list) with (y :: (ys ++ [x])%list).
  rewrite !concat_empty_cons, IH, string_app_assoc. reflexivity.
Qed.

Lemma concat_empty_nonempty (x : string) (xs : list string) :
  x <> "" -> String.concat "" (x :: xs) <> "".
Proof. intros Hx. rewrite concat_empty_cons. apply string_app_nonempty, Hx. Qed.

(** The words of [split_words] are its runs of characters, put together. *)
Lemma split_words_groups (cs cur : list string) :
  Forall (fun ch => ch <> "") cs ->
  Forall (fun ch => ch <> "") cur ->
  split_words cs (String.concat "" cur)
  = map (String.concat "") (group_words cs cur).
Proof.
  revert cur. induction cs as [|ch cs IH]; intros cur Hcs Hcur;
    cbn [split_words group_words].
  - destruct cur as [|x xs]; [reflexivity|].
    apply Forall_cons in Hcur as [Hx _].
    apply (concat_empty_nonempty x xs), String.eqb_neq in Hx. rewrite Hx.
    reflexivity.
  - apply Forall_cons in Hcs as [Hch Hcs].
    destruct (py_isspace ch).
    + destruct cur as [|x xs]; [apply (IH []); auto|].
      pose proof Hcur as Hcur'. apply Forall_cons in Hcur' as [Hx _].
      apply (concat_empty_nonempty x xs), String.eqb_neq in Hx. rewrite Hx.
      cbn [map]. f_equal. apply (IH []); auto.
    + rewrite <- concat_empty_snoc. apply IH; [exact Hcs|].
      apply Forall_app. split; [exact Hcur|]. constructor; auto.
Qed.

(** The runs are non-empty, free of whitespace and, in order, the
    characters that are not whitespace. *)
Lemma group_words_runs (cs cur : list string) :
  Forall (fun ch => py_isspace ch = false) cur ->
  Forall (fun w => w <> [] /\ Forall (fun ch => py_isspace ch = false) w)
    (group_words cs cur)
  /\ List.concat (group_words cs cur)
     = (cur ++ List.filter (fun ch => negb (py_isspace ch)) cs)%list.
Proof.
  revert cur. induction cs as [|ch cs IH]; intros cur Hcur;
    cbn [group_words List.filter].
  - destruct cur as [|x xs]; [split; [constructor|reflexivity]|].
    split; [constructor; [split; [discriminate|exact Hcur]|constructor]|].
    cbn. rewrite !app_nil_r. reflexivity.
  - destruct (py_isspace ch) eqn:Hch; cbn [negb].
    + destruct (IH [] (List.Forall_nil _)) as [Hruns Hconcat].
      destruct cur as [|x xs]; [split; [exact Hruns|exact Hconcat]|].
      split; [constructor; [split; [discriminate|exact Hcur]|exact Hruns]|].
      cbn [List.concat]. rewrite Hconcat. reflexivity.
    + destruct (IH (cur ++ [ch])%list) as [Hruns Hconcat].
      { apply Forall_app. split; [exact Hcur|]. constructor; auto. }
      split; [exact Hruns|]. rewrite Hconcat, <- app_assoc. reflexivity.
Qed.

Section TextAnalysis.
Context `{Runtime}.
Import EVAPythonCore.

Definition analyze_text_request (rid : string) (data options : dict)
  : ProcessingRequest.t :=
  {| ProcessingRequest.method := "nlp_analyze_text";
     ProcessingRequest.data := data;
     ProcessingRequest.options := options;
     ProcessingRequest.request_id := rid |}.

Lemma analyze_text_request_computes rid data options e :
  let text := dict_get data "text" (VStr "") in
  let request := analyze_text_request rid data options in
  process_request request e
  = (Ok match text with
        | VStr s =>
            success_response request
              [("word_count", VInt (Z.of_nat (List.length (split_whitespace s ""))));
               ("char_count", VInt (Z.of_nat (List.length (str_chars s))));
               ("sentences",
                VInt (Z.of_nat (List.length (split_on "."%char s ""))));
               ("language", VStr "en");
               ("complexity_score", VFloat 0.7);
               ("readability", VFloat 0.8)]
        | _ =>
            failure_response request
              ("'" ++ type_name text ++ "' object has no attribute 'split'")
        end, e).
Proof.
  cbv zeta. unfold process_request, try_except, bind, route. cbn.
  unfold on_nlp, on_component, NLPProcessor.analyze_text, bind, lift, ret.
  cbn [self np_state].
  destruct (dict_get data "text" (VStr "")); cbn;
    rewrite set_nlp_processor_same; destruct e; reflexivity.
Qed.

(** X11: for a text that is a string (the empty string when the key is
    absent) nlp_analyze_text succeeds with char_count the number of
    characters of the text, that is of code points and not of bytes,
    word_count the number of its whitespace-separated words, never more
    than char_count, and sentences one more than the number of full stops,
    so 1 even for the empty text. *)
Theorem analyze_text_counts rid data options e text :
  dict_get data "text" (VStr "") = VStr text ->
  let request := analyze_text_request rid data options in
  exists words,
    process_request request e
    = (Ok (success_response request
             [("word_count", VInt (Z.of_nat words));
              ("char_count", VInt (Z.of_nat (List.length (str_chars text))));
              ("sentences", VInt (Z.of_nat (S (count_char "."%char text))));
              ("language", VStr "en");
              ("complexity_score", VFloat 0.7);
              ("readability", VFloat 0.8)]), e)
    /\ words = List.length (split_whitespace text "")
    /\ words <= List.length (str_chars text).
Proof.
  intros Htext. cbv zeta. rewrite analyze_text_request_computes. cbv zeta.
  rewrite Htext, length_split_on.
  eexists. split; [reflexivity|]. split; [reflexivity|].
  pose proof (length_split_words (str_chars text) "") as Hl. cbn in Hl.
  unfold split_whitespace. lia.
Qed.

(** X12: what nlp_analyze_text counts.  For a text that is a string, the
    word_count of its answer is the number of words of a division of the
    text's characters that are not whitespace, in their order, into
    non-empty words; and its sentences is the number of fields that, joined
    by full stops, are the text. *)
Theorem analyze_text_splits_text rid data options e text :
  dict_get data "text" (VStr "") = VStr text ->
  let request := analyze_text_request rid data options in
  exists (words : list (list string)) (fields : list string) d,
    process_request request e = (Ok (success_response request d), e)
    /\ dict_lookup d "word_count" = Some (VInt (Z.of_nat (List.length words)))
    /\ dict_lookup d "sentences" = Some (VInt (Z.of_nat (List.length fields)))
    /\ split_whitespace text "" = map (String.concat "") words
    /\ Forall (fun w => w <> [] /\ Forall (fun ch => py_isspace ch = false) w)
         words
    /\ List.concat words
       = List.filter (fun ch => negb (py_isspace ch)) (str_chars text)
    /\ String.concat "." fields = text.
Proof.
  intros Htext. cbv zeta. rewrite analyze_text_request_computes. cbv zeta.
  rewrite Htext.
  destruct (group_words_runs (str_chars text) [] (List.Forall_nil _)) as [Hruns Hcat].
  pose proof (split_words_groups (str_chars text) []
                (chars_from_nonempty text "") (List.Forall_nil _)) as Hwords.
  change (String.concat "" []) with "" in Hwords.
  fold (split_whitespace text "") in Hwords.
  exists (group_words (str_chars text) []), (split_on "."%char text "").
  eexists. split; [reflexivity|].
  split; [cbn; rewrite Hwords, length_map; reflexivity|].
  split; [reflexivity|]. split; [exact Hwords|]. split; [exact Hruns|].
  split; [exact Hcat|apply (concat_split_on "."%char text "")].
Qed.

(** X13: a text that is not a string fails nlp_analyze_text with the
    AttributeError of its [split]; nothing is changed. *)
Theorem analyze_text_rejects_non_string rid data options e :
  let text := dict_get data "text" (VStr "") in
  (forall s, text <> VStr s) ->
  let request := analyze_text_request rid data options in
  process_request request e
  = (Ok (failure_response request
           ("'" ++ type_name text ++ "' object has no attribute 'split'")), e).
Proof.
  cbv zeta. intros Htext. rewrite analyze_text_request_computes. cbv zeta.
  destruct (dict_get data "text" (VStr "")) as [| | | |s| |]; try reflexivity.
  exfalso. exact (Htext s eq_refl).
Qed.
End TextAnalysis.

(** ** Data analysis *)

Section DataAnalysis.
Context `{Runtime}.
Import EVAPythonCore.

Definition analyze_data_request (rid : string) (data options : dict)
  : ProcessingRequest.t :=
  {| ProcessingRequest.method := "data_analyze";
     ProcessingRequest.data := data;
     ProcessingRequest.options := options;
     ProcessingRequest.request_id := rid |}.

(** The answer of data_analyze for a dataset of [rows] rows and [columns]
    columns. *)
Definition dataset_report (rows columns : nat) : dict :=
  [("rows", VInt (Z.of_nat rows));
   ("columns", VInt (Z.of_nat columns));
   ("missing_values", VInt 5);
   ("data_types", VDict [("numeric", VInt 8);
                         ("categorical", VInt 3);
                         ("text", VInt 2)]);
   ("statistics", VDict [("mean", VFloat 45.2);
                         ("std", VFloat 12.8);
                         ("min", VFloat 0.1);
                         ("max", VFloat 99.9)])].

Lemma analyze_data_request_computes rid data options e :
  let dataset := dict_get data "dataset" (VList []) in
  let request := analyze_data_request rid data options in
  process_request request e
  = (Ok (if negb (truthy dataset) then
           success_response request [("error", VStr "No dataset provided")]
         else
           match py_len dataset with
           | Raise x => failure_response request (exc_str x)
           | Ok rows =>
               match py_getitem0 dataset with
               | Raise x => failure_response request (exc_str x)
               | Ok first =>
                   match py_len first with
                   | Raise x => failure_response request (exc_str x)
                   | Ok columns =>
                       success_response request (dataset_report rows columns)
                   end
               end
           end), e).
Proof.
  cbv zeta. unfold process_request, try_except, bind, route. cbn.
  unfold on_data, on_component, DataAnalyzer.analyze_data, bind, lift, ret.
  cbn [self np_state].
  destruct (truthy (dict_get data "dataset" (VList []))) eqn:Ht; cbn [negb];
    [|cbn; rewrite set_data_analyzer_same; destruct e; reflexivity].
  pose proof (py_len_raises (dict_get data "dataset" (VList []))) as H1.
  destruct (py_len (dict_get data "dataset" (VList []))) as [rows|x];
    cbn in H1 |- *;
    [|rewrite H1, set_data_analyzer_same; destruct e; reflexivity].
  pose proof (py_getitem0_raises (dict_get data "dataset" (VList []))) as H2.
  destruct (py_getitem0 (dict_get data "dataset" (VList []))) as [first|x];
    cbn in H2 |- *;
    [|rewrite H2, set_data_analyzer_same; destruct e; reflexivity].
  pose proof (py_len_raises first) as H3.
  destruct (py_len first) as [columns|x]; cbn in H3 |- *;
    [|rewrite H3]; rewrite set_data_analyzer_same; destruct e; reflexivity.
Qed.

(** X14: without a dataset, data_analyze reports the problem inside a
    successful response.  When data.dataset is absent, empty, null, zero or
    false, the answer is success=true with the result
    {"error": "No dataset provided"} and no error field. *)
Theorem analyze_data_without_dataset rid data options e :
  truthy (dict_get data "dataset" (VList [])) = false ->
  let request := analyze_data_request rid data options in
  process_request request e
  = (Ok (success_response request [("error", VStr "No dataset provided")]), e)
  /\ ProcessingResponse.success
       (success_response request [("error", VStr "No dataset provided")]) = true
  /\ ProcessingResponse.error
       (success_response request [("error", VStr "No dataset provided")]) = None.
Proof.
  intros Ht. cbv zeta. rewrite analyze_data_request_computes. cbv zeta.
  rewrite Ht. repeat split.
Qed.

(** X15: data_analyze measures the dataset by its first row.  For a
    non-empty list whose first element has a length, rows is the length of
    the list and columns the length of that first element, whatever the
    other rows are. *)
Theorem analyze_data_measures_first_row rid data options e first rest columns :
  dict_get data "dataset" (VList []) = VList (first :: rest) ->
  py_len first = Ok columns ->
  let request := analyze_data_request rid data options in
  process_request request e
  = (Ok (success_response request
           (dataset_report (S (List.length rest)) columns)), e).
Proof.
  intros Hd Hc. cbv zeta. rewrite analyze_data_request_computes. cbv zeta.
  rewrite Hd. cbn. rewrite Hc. reflexivity.
Qed.

(** X16: data_analyze succeeds exactly when there is no dataset or the
    dataset has a first element with a length: a non-empty string, or a
    non-empty list that starts with a string, a list or a mapping.  A
    dataset given as a non-empty mapping is refused with the message "0",
    the key that indexing looked for. *)
Theorem analyze_data_succeeds_iff rid data options e :
  let dataset := dict_get data "dataset" (VList []) in
  let request := analyze_data_request rid data options in
  exists resp,
    process_request request e = (Ok resp, e)
    /\ (ProcessingResponse.success resp = true <->
        truthy dataset = false
        \/ exists first columns,
             py_getitem0 dataset = Ok first /\ py_len first = Ok columns)
    /\ (forall kv d, dataset = VDict (kv :: d) ->
                     resp = failure_response request "0").
Proof.
  cbv zeta. rewrite analyze_data_request_computes. cbv zeta.
  eexists. split; [reflexivity|].
  set (dataset := dict_get data "dataset" (VList [])).
  destruct (truthy dataset) eqn:Ht; cbn [negb].
  2:{ split; [split; auto|]. intros kv d Hd. rewrite Hd in Ht. discriminate Ht. }
  destruct (py_len dataset) as [rows|x] eqn:Hl.
  2:{ split.
      - split; [discriminate|].
        intros [Hx|(first & columns & Hg & _)]; [discriminate Hx|].
        destruct dataset; discriminate.
      - intros kv d Hd. rewrite Hd in Hl. discriminate Hl. }
  destruct (py_getitem0 dataset) as [first|x] eqn:Hg.
  2:{ split.
      - split; [discriminate|].
        intros [Hx|(first & columns & Hx & _)]; discriminate Hx.
      - intros kv d Hd. rewrite Hd in Hg. injection Hg as <-. reflexivity. }
  destruct (py_len first) as [columns|x] eqn:Hc.
  - split; [split; eauto|].
    intros kv d Hd. rewrite Hd in Hg. discriminate Hg.
  - split.
    + split; [discriminate|].
      intros [Hx|(first' & columns & Hf & Hx)]; [discriminate Hx|].
      injection Hf as <-. rewrite Hc in Hx. discriminate Hx.
    + intros kv d Hd. rewrite Hd in Hg. discriminate Hg.
Qed.
End DataAnalysis.

(** ** Feature selection *)

Section FeatureSelection.
Context `{Runtime}.
Import EVAPythonCore.

Definition feature_selection_request (rid : string) (data options : dict)
  : ProcessingRequest.t :=
  {| ProcessingRequest.method := "ml_feature_selection";
     ProcessingRequest.data := data;
     ProcessingRequest.options := options;
     ProcessingRequest.request_id := rid |}.

(** [feature_0], ..., [feature_(n-1)] *)
Definition feature_names (n : nat) : list string :=
  map (fun i => "feature_" ++ str_of_nat i) (seq 0 n).

(** The keys of a comprehension [{key(i): m(i) for i in xs}]. *)
Lemma for_each_keys {T A} (xs : list A) (key : A -> string) (m : A -> M T pyval)
    e l e' :
  for_each xs (fun i => let* x := m i in ret (key i, x)) e = (Ok l, e') ->
  map fst l = map key xs.
Proof.
  revert e l e'. induction xs as [|i xs IH]; intros e l e'; cbn [for_each].
  - intros [= <- _]. reflexivity.
  - unfold bind at 1 2. unfold ret at 1.
    destruct (m i e) as [[x|ex] e1]; [|discriminate].
    unfold bind at 1.
    destruct (for_each xs _ e1) as [[ys|ex] e2] eqn:Hys; [|discriminate].
    intros [= <- _]. cbn. f_equal. exact (IH _ _ _ Hys).
Qed.

(** X17: when ml_feature_selection succeeds on [n] features, it has
    drawn an importance for each of feature_0 ... feature_(n-1), in that
    order, and selected the first ten names (all of them when there are
    fewer); the names of the features given play no part, and the trainer
    is left as it was. *)
Theorem feature_selection_selects_first_ten rid data options e resp e' :
  process_request (feature_selection_request rid data options) e = (Ok resp, e') ->
  ProcessingResponse.success resp = true ->
  exists n importance,
    py_len (dict_get data "features" (VList [])) = Ok n
    /\ map fst importance = feature_names n
    /\ ProcessingResponse.result resp
       = Some [("feature_importance", VDict importance);
               ("selected_features",
                VList (map VStr (firstn 10 (feature_names n))));
               ("importance_method", VStr "random_forest")]
    /\ self e' = self e.
Proof.
  intros Hp Hs.
  assert (self e' = self e) as Hself.
  { change e' with (snd (Ok resp, e')). rewrite <- Hp, process_request_state.
    apply (reads_only_state _ nonempty), route_reads_only; discriminate. }
  revert Hp. unfold process_request, try_except, bind, route. cbn.
  unfold on_ml, on_component, MLTrainer.feature_selection, bind, lift, ret.
  cbn [self np_state].
  destruct (py_len (dict_get data "features" (VList []))) as [n|x] eqn:Hn.
  2:{ destruct (is_Exception (exc_type x)); intros [= <- _]; discriminate. }
  destruct (for_each (seq 0 n) _ _) as [[importance|x] e1] eqn:Hf.
  2:{ destruct (is_Exception (exc_type x)); intros [= <- _]; discriminate. }
  intros [= <- _]. exists n, importance.
  split; [reflexivity|]. apply for_each_keys in Hf. rewrite Hf.
  split; [reflexivity|]. split; [reflexivity|exact Hself].
Qed.
End FeatureSelection.

(** ** Handlers that do not look *)

Section Simulated.
Context `{Runtime}.
Import EVAPythonCore.

(** The methods whose handlers return a literal. *)
Definition simulated_methods : list string :=
  ["nlp_extract_entities"; "nlp_sentiment_analysis"; "ml_evaluate_model";
   "data_clean"; "neural_optimize"].

(** X18: five handlers are pure simulations.  nlp_extract_entities,
    nlp_sentiment_analysis, ml_evaluate_model, data_clean and
    neural_optimize never fail, change nothing, and answer the same result
    for every data, every options and every state. *)
Theorem simulated_handlers_ignore_request method rid rid' data data' options
    options' e e' :
  In method simulated_methods ->
  exists d,
    process_request
      {| ProcessingRequest.method := method;
         ProcessingRequest.data := data;
         ProcessingRequest.options := options;
         ProcessingRequest.request_id := rid |} e
    = (Ok {| ProcessingResponse.request_id := rid;
             ProcessingResponse.success := true;
             ProcessingResponse.result := Some d;
             ProcessingResponse.error := None;
             ProcessingResponse.metadata :=
               Some [("processing_time", VFloat 0.1);
                     ("model_used", VStr "default")] |}, e)
    /\ process_request
         {| ProcessingRequest.method := method;
            ProcessingRequest.data := data';
            ProcessingRequest.options := options';
            ProcessingRequest.request_id := rid' |} e'
       = (Ok {| ProcessingResponse.request_id := rid';
                ProcessingResponse.success := true;
                ProcessingResponse.result := Some d;
                ProcessingResponse.error := None;
                ProcessingResponse.metadata :=
                  Some [("processing_time", VFloat 0.1);
                        ("model_used", VStr "default")] |}, e').
Proof.
  intros Hin. cbn in Hin.
  destruct e as [o g], e' as [o' g'].
  destruct Hin as [<-|[<-|[<-|[<-|[<-|[]]]]]]; eexists;
    unfold process_request, try_except, bind, route; cbn;
    unfold on_nlp, on_ml, on_data, on_neural, on_component; cbn;
    rewrite ?set_nlp_processor_same, ?set_ml_trainer_same,
      ?set_data_analyzer_same, ?set_neural_engine_same;
    split; reflexivity.
Qed.

Definition with_neural_engine (c : NeuralEngine.t) (e : Env t) : Env t :=
  mkEnv (set_neural_engine c (self e)) (np_state e).

(** X19: the engine never looks a network up.  neural_train and
    neural_inference give the same answer whatever the store of networks
    holds, so also for a network_id that was never created; neural_train
    always succeeds and echoes the id and the epochs (100 when absent). *)
Theorem neural_handlers_ignore_store rid data options c e :
  let train :=
    {| ProcessingRequest.method := "neural_train";
       ProcessingRequest.data := data;
       ProcessingRequest.options := options;
       ProcessingRequest.request_id := rid |} in
  let inference :=
    {| ProcessingRequest.method := "neural_inference";
       ProcessingRequest.data := data;
       ProcessingRequest.options := options;
       ProcessingRequest.request_id := rid |} in
  process_request train e
  = (Ok (success_response train
           [("network_id", dict_get options "network_id" VNone);
            ("epochs_completed", dict_get options "epochs" (VInt 100));
            ("final_loss", VFloat 0.0234);
            ("final_accuracy", VFloat 0.967);
            ("training_time", VFloat 45.2);
            ("convergence", VBool true)]), e)
  /\ fst (process_request train (with_neural_engine c e))
     = fst (process_request train e)
  /\ fst (process_request inference (with_neural_engine c e))
     = fst (process_request inference e).
Proof.
  cbv zeta. destruct e as [o g]. split; [|split].
  - unfold process_request, try_except, bind, route. cbn.
    unfold on_neural, on_component. cbn.
    rewrite set_neural_engine_same. reflexivity.
  - reflexivity.
  - unfold process_request, try_except, bind, route, with_neural_engine. cbn.
    unfold on_neural, on_component, NeuralEngine.run_inference, bind, lift, ret,
      np_rand.
    cbn [self np_state].
    destruct (py_len (dict_get data "input" (VList []))) as [n|x]; cbn;
      [|destruct (is_Exception (exc_type x)); reflexivity].
    destruct (np_random_rand _ g) as [[v|k msg] g']; cbn;
      [reflexivity|rewrite np_class_is_Exception; reflexivity].
Qed.
End Simulated.

(** ** Initialisation and what depends on it *)

Section Initialisation.
Context `{Runtime}.
Import EVAPythonCore.






Definition health_check_request (rid : string) (data options : dict)
  : ProcessingRequest.t :=
  {| ProcessingRequest.method := "health_check";
     ProcessingRequest.data := data;
     ProcessingRequest.options := options;
     ProcessingRequest.request_id := rid |}.

Lemma serve_catalog requests e :
  models (self (serve requests e)) = models (self e)
  /\ is_initialized (self (serve requests e)) = is_initialized (self e).
Proof.
  revert e. induction requests as [|request requests IH]; intros e;
    [split; reflexivity|].
  cbn [serve fold_left].
  destruct (IH (snd (process_request request e))) as [Hm Hi].
  unfold serve in Hm, Hi. rewrite Hm, Hi, process_request_state.
  destruct (route_stays_in_component request e) as (Hm' & _ & _ & Hi' & _).
  split; [exact Hm'|exact Hi'].
Qed.

(** X21: health_check reports the catalog, not the trainer.  Its answer
    is the same before and after any sequence of requests: models_loaded
    counts the default models only, however many models were trained or
    networks created in between, and initialized does not move. *)
Theorem health_check_ignores_requests requests rid data options e :
  fst (process_request (health_check_request rid data options) (serve requests e))
  = fst (process_request (health_check_request rid data options) e).
Proof.
  assert (forall e0,
             fst (process_request (health_check_request rid data options) e0)
             = Ok (success_response (health_check_request rid data options)
                     [("status", VStr "healthy");
                      ("initialized", VBool (is_initialized (self e0)));
                      ("models_loaded", VInt (Z.of_nat (size (models (self e0)))));
                      ("uptime", VStr "simulation")])) as Hany
    by (intros e0; reflexivity).
  rewrite !Hany. destruct (serve_catalog requests e) as [-> ->]. reflexivity.
Qed.

(** The same state with the flag set to [b]. *)
Definition with_flag (b : bool) (e : Env t) : Env t :=
  mkEnv (set_is_initialized b (self e)) (np_state e).

Lemma route_with_flag request b e :
  ProcessingRequest.method request <> "health_check" ->
  route request (with_flag b e)
  = (fst (route request e), with_flag b (snd (route request e))).
Proof.
  intros Hh. apply String.eqb_neq in Hh. unfold route. cbv zeta.
  destruct (String.prefix "nlp_" _).
  { unfold on_nlp, on_component, with_flag. cbn [self np_state].
    destruct (NLPProcessor.process _ _ _ _) as [r e1]. reflexivity. }
  destruct (String.prefix "ml_" _).
  { unfold on_ml, on_component, with_flag. cbn [self np_state].
    destruct (MLTrainer.process _ _ _ _) as [r e1]. reflexivity. }
  destruct (String.prefix "data_" _).
  { unfold on_data, on_component, with_flag. cbn [self np_state].
    destruct (DataAnalyzer.process _ _ _ _) as [r e1]. reflexivity. }
  destruct (String.prefix "neural_" _).
  { unfold on_neural, on_component, with_flag. cbn [self np_state].
    destruct (NeuralEngine.process _ _ _ _) as [r e1]. reflexivity. }
  unfold process_general. rewrite Hh.
  destruct (String.eqb _ "get_capabilities"); destruct e as [[] g]; reflexivity.
Qed.

(** X22: the dispatcher does not wait for [initialize].  The flag
    is_initialized is read by health_check and by nothing else: any other
    request gets the same response and has the same effect whether the flag
    is set or not, so also on a dispatcher that was never initialised. *)
Theorem requests_do_not_need_initialize request b e :
  ProcessingRequest.method request <> "health_check" ->
  process_request request (with_flag b e)
  = (fst (process_request request e),
     with_flag b (snd (process_request request e))).
Proof.
  intros Hh. unfold process_request, try_except, bind.
  rewrite (route_with_flag request b e Hh).
  destruct (route request e) as [[d|x] e']; cbn [fst snd]; [reflexivity|].
  destruct (is_Exception (exc_type x)); reflexivity.
Qed.
End Initialisation.

(** ** Models stay known, and the order of the prefix tests *)

Section Sequences.
Context `{Runtime}.
Import EVAPythonCore.

Lemma process_request_keeps_known v request e :
  known_model v (ml_trainer (self e)) ->
  known_model v (ml_trainer (self (snd (process_request request e)))).
Proof.
  intros (s & -> & Hs & Hin). exists s. split; [reflexivity|]. split; [exact Hs|].
  destruct (process_request_stores request e) as [Hml _]. cbv zeta in Hml.
  destruct Hml as [->|(text & w & ->)]; [exact Hin|].
  destruct (decide (trained_model_id text = s)) as [->|Hne].
  - rewrite lookup_insert_eq. eauto.
  - rewrite lookup_insert_ne by exact Hne. exact Hin.
Qed.

Lemma serve_keeps_known v requests e :
  known_model v (ml_trainer (self e)) ->
  known_model v (ml_trainer (self (serve requests e))).
Proof.
  revert e. induction requests as [|request requests IH]; intros e Hk;
    [exact Hk|].
  cbn [serve fold_left]. apply IH, process_request_keeps_known, Hk.
Qed.

(** A training that answers success=true leaves the id of its answer in
    the store. *)
Lemma trained_model_known rid data options e resp e1 d m :
  process_request (train_request rid data options) e = (Ok resp, e1) ->
  ProcessingResponse.success resp = true ->
  ProcessingResponse.result resp = Some d ->
  dict_lookup d "model_id" = Some (VStr m) ->
  known_model (VStr m) (ml_trainer (self e1)).
Proof.
  intros Htrain Hsuccess Hres Hid.
  destruct (py_str (VDict data)) as [text|x] eqn:Hs.
  2:{ rewrite (train_model_fails rid data options e x Hs) in Htrain.
      injection Htrain as <- _. discriminate Hsuccess. }
  destruct (train_model_registers rid data options e text Hs)
    as (d' & e1' & Htrain' & Hid' & Hstore).
  rewrite Htrain in Htrain'. injection Htrain' as -> <-.
  cbn in Hres. injection Hres as <-.
  rewrite Hid in Hid'. injection Hid' as ->.
  exists (trained_model_id text). split; [reflexivity|].
  split; [discriminate|exact Hstore].
Qed.

(** X23: a model, once trained, stays known.  When ml_train_model answers
    success=true with model_id [m], an ml_predict request with
    options.model_id [m] whose data.input is absent or has a length answers
    success=true for the same model after any further sequence of requests,
    whether they succeed or fail, as it does at once.  (A training that
    fails, which it does when [str(data)] raises, files no model and
    promises nothing.) *)
Theorem trained_model_stays_known rid1 data1 options1 requests rid2 data2
    options2 e resp1 e1 d1 m n :
  process_request (train_request rid1 data1 options1) e = (Ok resp1, e1) ->
  ProcessingResponse.success resp1 = true ->
  ProcessingResponse.result resp1 = Some d1 ->
  dict_lookup d1 "model_id" = Some (VStr m) ->
  dict_lookup options2 "model_id" = Some (VStr m) ->
  py_len (dict_get data2 "input" (VList [])) = Ok n ->
  let e2 := serve requests e1 in
  exists d,
    process_request (predict_request rid2 data2 options2) e2
    = (Ok (success_response (predict_request rid2 data2 options2) d), e2)
    /\ dict_lookup d "model_id" = Some (VStr m).
Proof.
  intros Htrain Hsuccess Hres Hid Hopt Hlen. cbv zeta.
  pose proof (trained_model_known _ _ _ _ _ _ _ _ Htrain Hsuccess Hres Hid)
    as Hk.
  apply (serve_keeps_known _ requests) in Hk.
  destruct Hk as (s & [= <-] & Hs & Hin).
  apply (predict_known_model rid2 data2 options2 _ n _ Hopt Hs Hin Hlen).
Qed.

(** X24: the four prefixes exclude one another, so the order in which
    [process_request] tries them is immaterial: trying them in the opposite
    order routes every request to the same handler. *)
Theorem prefix_tests_commute request :
  let method := ProcessingRequest.method request in
  let data := ProcessingRequest.data request in
  let options := ProcessingRequest.options request in
  route request
  = (if String.prefix "neural_" method then
       on_neural (NeuralEngine.process method data options)
     else if String.prefix "data_" method then
       on_data (DataAnalyzer.process method data options)
     else if String.prefix "ml_" method then
       on_ml (MLTrainer.process method data options)
     else if String.prefix "nlp_" method then
       on_nlp (NLPProcessor.process method data options)
     else process_general method data options).
Proof.
  cbv zeta. unfold route. cbv zeta.
  set (m := ProcessingRequest.method request).
  destruct (String.prefix "nlp_" m) eqn:Hn.
  { destruct (prefix_append _ _ Hn) as [rest Hm].
    assert (String.prefix "neural_" m = false) as -> by (rewrite Hm; reflexivity).
    assert (String.prefix "data_" m = false) as -> by (rewrite Hm; reflexivity).
    assert (String.prefix "ml_" m = false) as -> by (rewrite Hm; reflexivity).
    reflexivity. }
  destruct (String.prefix "ml_" m) eqn:Hl.
  { destruct (prefix_append _ _ Hl) as [rest Hm].
    assert (String.prefix "neural_" m = false) as -> by (rewrite Hm; reflexivity).
    assert (String.prefix "data_" m = false) as -> by (rewrite Hm; reflexivity).
    reflexivity. }
  destruct (String.prefix "data_" m) eqn:Hd.
  { destruct (prefix_append _ _ Hd) as [rest Hm].
    assert (String.prefix "neural_" m = false) as -> by (rewrite Hm; reflexivity).
    reflexivity. }
  reflexivity.
Qed.
End Sequences.

(** ** The further statements at work on the example runtime *)

Section MoreExamples.
#[local] Existing Instance toy_runtime.
Import EVAPythonCore.

Definition predict_model_6 (input_data : pyval) : ProcessingRequest.t :=
  predict_request "p1" [("input", input_data)] [("model_id", VStr "model_6")].

(** A successful prediction writes nothing. *)
Lemma only_training_and_creation_write_witness :
  self (snd (process_request (predict_model_6 (VList [VInt 1])) trained_env))
  = self trained_env.
Proof. apply only_training_and_creation_write; discriminate. Defined.

(** On the example runtime every mapping prints alike, so all data share
    the id "model_6": a second training replaces the first model. *)
Lemma retraining_replaces_model_witness :
  let data2 := [("features", VList [VStr "age"])] in
  let options2 := [("model_type", VStr "svm")] in
  let e1 := snd (process_request (train_request "t1" [] []) toy_env) in
  let e2 := snd (process_request (train_request "t2" data2 options2) e1) in
  let store1 := MLTrainer.models (ml_trainer (self e1)) in
  let store2 := MLTrainer.models (ml_trainer (self e2)) in
  store2 !! "model_6"
  = Some (VDict [("type", VStr "svm");
                 ("trained_at", VStr "simulation");
                 ("features", VList [VStr "age"]);
                 ("target", VStr "unknown")])
  /\ dom store2 = dom store1
  /\ size store2 = size store1.
Proof.
  apply (retraining_replaces_model "t1" "t2" [] [("features", VList [VStr "age"])]
           [] [("model_type", VStr "svm")] toy_env "<dict>" "<dict>");
    reflexivity.
Defined.

Lemma model_6_is_known :
  known_model (VStr "model_6") (ml_trainer (self trained_env)).
Proof.
  exists "model_6". split; [reflexivity|]. split; [discriminate|].
  eexists. reflexivity.
Defined.

(** An empty input gets no prediction. *)
Lemma predictions_depend_on_emptiness_witness :
  process_request (predict_model_6 (VList [])) trained_env
  = (Ok (success_response (predict_model_6 (VList []))
           [("predictions", VList []);
            ("confidence", VFloat 0.85);
            ("model_id", VStr "model_6");
            ("prediction_time", VFloat 0.05)]), trained_env).
Proof.
  apply (predictions_depend_on_emptiness "p1" [("input", VList [])]
           [("model_id", VStr "model_6")] trained_env 0).
  - exact model_6_is_known.
  - reflexivity.
Defined.

(** Without options there is no id. *)
Lemma predict_rejects_unknown_id_witness :
  process_request (predict_request "p2" [] []) trained_env
  = (Ok (failure_response (predict_request "p2" [] [])
           "Model None not found"), trained_env).
Proof.
  apply (predict_rejects_unknown_id "p2" [] [] trained_env).
  intros (s & Hs & _). discriminate Hs.
Defined.

(** U+00A0, the no-break space, in UTF-8. *)
Definition nbsp : string :=
  String (ascii_of_nat 194) (String (ascii_of_nat 160) "").

(** Thirteen characters in eighteen bytes; the no-break space separates
    words as the space does. *)
Definition accented_text : string := "héllo" ++ nbsp ++ "wörld 中".

Lemma accented_text_length :
  String.length accented_text = 18
  /\ List.length (str_chars accented_text) = 13
  /\ split_whitespace accented_text "" = ["héllo"; "wörld"; "中"].
Proof. repeat split. Qed.

Lemma analyze_text_counts_witness :
  let request := analyze_text_request "r1" [("text", VStr accented_text)] [] in
  exists words,
    process_request request toy_env
    = (Ok (success_response request
             [("word_count", VInt (Z.of_nat words));
              ("char_count", VInt 13);
              ("sentences", VInt 1);
              ("language", VStr "en");
              ("complexity_score", VFloat 0.7);
              ("readability", VFloat 0.8)]), toy_env)
    /\ words = 3
    /\ words <= 13.
Proof.
  apply (analyze_text_counts "r1" [("text", VStr accented_text)] [] toy_env
           accented_text).
  reflexivity.
Defined.

Lemma analyze_text_splits_text_witness :
  let request := analyze_text_request "r1" [("text", VStr "a b. c")] [] in
  exists (words : list (list string)) (fields : list string) d,
    process_request request toy_env = (Ok (success_response request d), toy_env)
    /\ dict_lookup d "word_count" = Some (VInt (Z.of_nat (List.length words)))
    /\ dict_lookup d "sentences" = Some (VInt (Z.of_nat (List.length fields)))
    /\ ["a"; "b."; "c"] = map (String.concat "") words
    /\ Forall (fun w => w <> [] /\ Forall (fun ch => py_isspace ch = false) w)
         words
    /\ List.concat words = ["a"; "b"; "."; "c"]
    /\ String.concat "." fields = "a b. c".
Proof.
  apply (analyze_text_splits_text "r1" [("text", VStr "a b. c")] [] toy_env
           "a b. c").
  reflexivity.
Defined.

Lemma analyze_text_rejects_non_string_witness :
  let request := analyze_text_request "r1" [("text", VInt 5)] [] in
  process_request request toy_env
  = (Ok (failure_response request "'int' object has no attribute 'split'"),
     toy_env).
Proof.
  apply (analyze_text_rejects_non_string "r1" [("text", VInt 5)] [] toy_env).
  intros s Hs. discriminate Hs.
Defined.

Lemma analyze_data_without_dataset_witness :
  let request := analyze_data_request "r1" [] [] in
  process_request request toy_env
  = (Ok (success_response request [("error", VStr "No dataset provided")]), toy_env)
  /\ ProcessingResponse.success
       (success_response request [("error", VStr "No dataset provided")]) = true
  /\ ProcessingResponse.error
       (success_response request [("error", VStr "No dataset provided")]) = None.
Proof.
  apply (analyze_data_without_dataset "r1" [] [] toy_env). reflexivity.
Defined.

(** Two rows, of three columns and of one: the first row decides. *)
Lemma analyze_data_measures_first_row_witness :
  let dataset :=
    VList [VList [VInt 1; VInt 2; VInt 3]; VList [VInt 4]] in
  let request := analyze_data_request "r1" [("dataset", dataset)] [] in
  process_request request toy_env
  = (Ok (success_response request (dataset_report 2 3)), toy_env).
Proof.
  apply (analyze_data_measures_first_row "r1"
           [("dataset", VList [VList [VInt 1; VInt 2; VInt 3]; VList [VInt 4]])]
           [] toy_env (VList [VInt 1; VInt 2; VInt 3]) [VList [VInt 4]] 3);
    reflexivity.
Defined.

Definition two_features : dict := [("features", VList [VStr "age"; VStr "height"])].

Definition two_features_response : ProcessingResponse.t :=
  success_response (feature_selection_request "r1" two_features [])
    [("feature_importance",
      VDict [("feature_0", VFloat 0); ("feature_1", VFloat 0)]);
     ("selected_features", VList [VStr "feature_0"; VStr "feature_1"]);
     ("importance_method", VStr "random_forest")].

(** Two features, whatever their names: feature_0 and feature_1, and two
    draws from the generator. *)
Lemma feature_selection_selects_first_ten_witness :
  process_request (feature_selection_request "r1" two_features []) toy_env
  = (Ok two_features_response, @mkEnv toy_runtime _ EVAPythonCore.new 2%nat)
  /\ exists n importance,
       py_len (dict_get two_features "features" (VList [])) = Ok n
       /\ map fst importance = feature_names n
       /\ ProcessingResponse.result two_features_response
          = Some [("feature_importance", VDict importance);
                  ("selected_features",
                   VList (map VStr (firstn 10 (feature_names n))));
                  ("importance_method", VStr "random_forest")]
       /\ self (@mkEnv toy_runtime _ EVAPythonCore.new 2%nat) = self toy_env.
Proof.
  split; [reflexivity|].
  apply (feature_selection_selects_first_ten "r1" two_features [] toy_env
           two_features_response (@mkEnv toy_runtime _ EVAPythonCore.new 2%nat));
    reflexivity.
Defined.

Lemma simulated_handlers_ignore_request_witness :
  exists d,
    process_request
      {| ProcessingRequest.method := "data_clean";
         ProcessingRequest.data := [];
         ProcessingRequest.options := [];
         ProcessingRequest.request_id := "a" |} toy_env
    = (Ok {| ProcessingResponse.request_id := "a";
             ProcessingResponse.success := true;
             ProcessingResponse.result := Some d;
             ProcessingResponse.error := None;
             ProcessingResponse.metadata :=
               Some [("processing_time", VFloat 0.1);
                     ("model_used", VStr "default")] |}, toy_env)
    /\ process_request
         {| ProcessingRequest.method := "data_clean";
            ProcessingRequest.data := [("dataset", VInt 7)];
            ProcessingRequest.options := [("x", VNone)];
            ProcessingRequest.request_id := "b" |} trained_env
       = (Ok {| ProcessingResponse.request_id := "b";
                ProcessingResponse.success := true;
                ProcessingResponse.result := Some d;
                ProcessingResponse.error := None;
                ProcessingResponse.metadata :=
                  Some [("processing_time", VFloat 0.1);
                        ("model_used", VStr "default")] |}, trained_env).
Proof.
  apply (simulated_handlers_ignore_request "data_clean" "a" "b" []
           [("dataset", VInt 7)] [] [("x", VNone)] toy_env trained_env).
  cbn. tauto.
Defined.

(** Training is served on a dispatcher that was never initialised just as
    on one whose flag is set. *)
Lemma requests_do_not_need_initialize_witness :
  process_request (train_request "t1" [] []) (with_flag true toy_env)
  = (fst (process_request (train_request "t1" [] []) toy_env),
     with_flag true (snd (process_request (train_request "t1" [] []) toy_env))).
Proof.
  apply (requests_do_not_need_initialize (train_request "t1" [] []) true toy_env).
  discriminate.
Defined.

(** "model_6" is still accepted after a rejected request and the creation
    of a network. *)
Lemma trained_model_stays_known_witness :
  let predict := predict_model_6 (VList [VInt 1]) in
  let e2 := serve [nlp_bogus; create_request "c1" [] []] trained_env in
  exists d,
    process_request predict e2 = (Ok (success_response predict d), e2)
    /\ dict_lookup d "model_id" = Some (VStr "model_6").
Proof.
  apply (trained_model_stays_known "t1" [] [] [nlp_bogus; create_request "c1" [] []]
           "p1" [("input", VList [VInt 1])] [("model_id", VStr "model_6")]
           toy_env
           (success_response (train_request "t1" [] [])
              [("model_id", VStr "model_6");
               ("accuracy", VFloat 0.92);
               ("precision", VFloat 0.89);
               ("recall", VFloat 0.94);
               ("f1_score", VFloat 0.91);
               ("training_time", VFloat 2.5)])
           trained_env
           [("model_id", VStr "model_6");
            ("accuracy", VFloat 0.92);
            ("precision", VFloat 0.89);
            ("recall", VFloat 0.94);
            ("f1_score", VFloat 0.91);
            ("training_time", VFloat 2.5)]
           "model_6" 1); reflexivity.
Defined.
End MoreExamples.
